(** * The ADK gateway backend (backend/main.py, backend/models.py)

    A shallow embedding of the FastAPI handlers of the gateway and of the
    Python operations they perform on decoded JSON, followed by the
    properties of the session store, of the response normalisation and of
    the evaluation-set registry.

    Conventions of the embedding.
    - A Python value that comes out of a JSON decoder, or that the handlers
      build from such values, is a [json].  A Python [str] is a [string],
      one [ascii] per character; [len] is [String.length].
    - Code that can raise returns in [result]; handlers thread the
      process-wide state through the state-and-error monad [ST].
    - [uuid.uuid4()] and [datetime.now()] read from two streams held in the
      [World]; the answer of the remote agent is an argument of the chat
      handler.
    - A handler runs from start to end without interleaving. *)

From Stdlib Require Import ZArith String Ascii List Bool Lia.
From stdpp Require Import gmap strings list fin_maps pretty.

Local Open Scope Z_scope.
Local Set Warnings "-register-all".

(** ** Python values and the operations the handlers use *)

Module Py.

(** A float is held by its [repr], the shortest decimal text that reads
    back as the same float; truthiness and [json.dumps] are functions of
    it. *)
Inductive json : Type :=
| JNull
| JBool (b : bool)
| JInt (n : Z)
| JFloat (repr : string)
| JStr (s : string)
| JArr (items : list json)
| JObj (items : list (string * json)).

(** Exceptions, all of them subclasses of [Exception]. *)
Inductive exn_class :=
| AttributeError
| TypeError
| KeyError
| IndexError
| RequestError      (* httpx.RequestError and its subclasses *)
| OtherException.   (* any other subclass, such as JSONDecodeError *)

Record exn := Exn { exn_cls : exn_class; exn_str : string }.

Inductive result (E A : Type) :=
| Ok (a : A)
| Raise (e : E).
Arguments Ok {E A} a.
Arguments Raise {E A} e.

Definition rbind {E A B} (r : result E A) (k : A -> result E B) : result E B :=
  match r with
  | Ok a => k a
  | Raise e => Raise e
  end.

Declare Scope result_scope.
Delimit Scope result_scope with result.
Notation "'let?' x ':=' r 'in' k" := (rbind r (fun x => k))
  (at level 10, x name, r at level 100, k at level 200) : result_scope.

(** [type(v).__name__] *)
Definition type_name (v : json) : string :=
  match v with
  | JNull => "NoneType"
  | JBool _ => "bool"
  | JInt _ => "int"
  | JFloat _ => "float"
  | JStr _ => "str"
  | JArr _ => "list"
  | JObj _ => "dict"
  end.

Definition float_is_zero (repr : string) : bool :=
  bool_decide (repr = "0.0") || bool_decide (repr = "-0.0").

(** [bool(v)] *)
Definition truthy (v : json) : bool :=
  match v with
  | JNull => false
  | JBool b => b
  | JInt n => negb (n =? 0)
  | JFloat r => negb (float_is_zero r)
  | JStr s => negb (bool_decide (s = ""))
  | JArr l => match l with [] => false | _ => true end
  | JObj l => match l with [] => false | _ => true end
  end.

(** Lookup in the items of a dict, kept in insertion order; the keys of a
    dict are pairwise distinct. *)
Fixpoint dict_lookup {V} (items : list (string * V)) (key : string) : option V :=
  match items with
  | [] => None
  | (k, v) :: rest => if bool_decide (k = key) then Some v else dict_lookup rest key
  end.

(** [o.get(key, default)] *)
Definition get (o : json) (key : string) (default : json) : result exn json :=
  match o with
  | JObj items => Ok (match dict_lookup items key with Some v => v | None => default end)
  | _ => Raise (Exn AttributeError
                  ("'" +:+ type_name o +:+ "' object has no attribute 'get'"))
  end.

(** [len(v)] *)
Definition len (v : json) : result exn nat :=
  match v with
  | JStr s => Ok (String.length s)
  | JArr l => Ok (length l)
  | JObj l => Ok (length l)
  | _ => Raise (Exn TypeError ("object of type '" +:+ type_name v +:+ "' has no len()"))
  end.

(** [v[0]]; a decoded dict has string keys only, so [0] is never one. *)
Definition item0 (v : json) : result exn json :=
  match v with
  | JArr (x :: _) => Ok x
  | JArr [] => Raise (Exn IndexError "list index out of range")
  | JStr (String c _) => Ok (JStr (String c EmptyString))
  | JStr EmptyString => Raise (Exn IndexError "string index out of range")
  | JObj _ => Raise (Exn KeyError "0")
  | _ => Raise (Exn TypeError ("'" +:+ type_name v +:+ "' object is not subscriptable"))
  end.

(** [v[:n]] *)
Definition slice_to (n : nat) (v : json) : result exn json :=
  match v with
  | JStr s => Ok (JStr (String.substring 0 n s))
  | JArr l => Ok (JArr (take n l))
  | JObj _ => Raise (Exn TypeError "unhashable type: 'slice'")
  | _ => Raise (Exn TypeError ("'" +:+ type_name v +:+ "' object is not subscriptable"))
  end.

Definition dquote : ascii := "034"%char.
Definition backslash : string := "\".

(** [v + s] for a [str] [s] *)
Definition add_str (v : json) (s : string) : result exn json :=
  match v with
  | JStr t => Ok (JStr (t +:+ s))
  | JArr _ =>
      Raise (Exn TypeError
               ("can only concatenate list (not " +:+ String dquote "str"
                  +:+ String dquote ") to list"))
  | _ =>
      Raise (Exn TypeError
               ("unsupported operand type(s) for +: '" +:+ type_name v +:+ "' and 'str'"))
  end.

(** *** [json.dumps] with its default settings *)

Definition hex_char (d : Z) : ascii :=
  match String.get (Z.to_nat d) "0123456789abcdef" with
  | Some c => c
  | None => "0"%char
  end.

(** One character of a string literal, as [ensure_ascii] writes it. *)
Definition escape_char (c : ascii) : string :=
  let n := Z.of_nat (nat_of_ascii c) in
  if n =? 34 then backslash +:+ String dquote EmptyString
  else if n =? 92 then backslash +:+ backslash
  else if n =? 10 then backslash +:+ "n"
  else if n =? 13 then backslash +:+ "r"
  else if n =? 9 then backslash +:+ "t"
  else if n =? 8 then backslash +:+ "b"
  else if n =? 12 then backslash +:+ "f"
  else if (32 <=? n) && (n <=? 126) then String c EmptyString
  else backslash +:+ "u00"
         +:+ String (hex_char (Z.shiftr n 4)) (String (hex_char (Z.land n 15)) EmptyString).

Fixpoint escape_chars (s : string) : string :=
  match s with
  | EmptyString => EmptyString
  | String c rest => escape_char c +:+ escape_chars rest
  end.

Definition dumps_str (s : string) : string :=
  String dquote (escape_chars s +:+ String dquote EmptyString).

Definition dumps_float (repr : string) : string :=
  if bool_decide (repr = "nan") then "NaN"
  else if bool_decide (repr = "inf") then "Infinity"
  else if bool_decide (repr = "-inf") then "-Infinity"
  else repr.

Fixpoint join (sep : string) (parts : list string) : string :=
  match parts with
  | [] => EmptyString
  | [p] => p
  | p :: rest => p +:+ sep +:+ join sep rest
  end.

Fixpoint dumps (v : json) : string :=
  match v with
  | JNull => "null"
  | JBool true => "true"
  | JBool false => "false"
  | JInt n => pretty n
  | JFloat r => dumps_float r
  | JStr s => dumps_str s
  | JArr l => "[" +:+ join ", " (map dumps l) +:+ "]"
  | JObj l =>
      "{" +:+ join ", " (map (fun kv => dumps_str (fst kv) +:+ ": " +:+ dumps (snd kv)) l)
          +:+ "}"
  end.

End Py.

Import Py.

(** ** Identifiers and time stamps *)

(** [hex_digits k u acc] writes the low [4k] bits of [u] as [k] hexadecimal
    digits in front of [acc]. *)
Fixpoint hex_digits (k : nat) (u : Z) (acc : string) : string :=
  match k with
  | O => acc
  | S k' => hex_digits k' (Z.shiftr u 4) (String (hex_char (Z.land u 15)) acc)
  end.

(** [str(u)] for a [uuid.UUID] with 128-bit value [u]: 8-4-4-4-12. *)
Definition str_uuid (u : Z) : string :=
  hex_digits 8 (Z.shiftr u 96)
    (String "-" (hex_digits 4 (Z.shiftr u 80)
      (String "-" (hex_digits 4 (Z.shiftr u 64)
        (String "-" (hex_digits 4 (Z.shiftr u 48)
          (String "-" (hex_digits 12 u EmptyString)))))))).

Record datetime := Datetime {
  year : nat; month : nat; day : nat;
  hour : nat; minute : nat; second : nat; microsecond : nat
}.

Fixpoint zeros (k : nat) : string :=
  match k with
  | O => EmptyString
  | S k' => String "0" (zeros k')
  end.

Definition zfill (width n : nat) : string :=
  let s := pretty n in zeros (width - String.length s) +:+ s.

(** [d.isoformat()] for a naive [datetime] *)
Definition isoformat (d : datetime) : string :=
  zfill 4 (year d) +:+ "-" +:+ zfill 2 (month d) +:+ "-" +:+ zfill 2 (day d)
    +:+ "T" +:+ zfill 2 (hour d) +:+ ":" +:+ zfill 2 (minute d)
    +:+ ":" +:+ zfill 2 (second d)
    +:+ (if (microsecond d =? 0)%nat then EmptyString
         else "." +:+ zfill 6 (microsecond d)).

(** ** The data classes of models.py *)

Module Session.
Record t := Make {
  id : string;
  appName : string;
  userId : string;
  createdAt : datetime;
  events : list json;
  state : json
}.

(** [__init__]: [events or []] and [state or {}] *)
Definition init (id appName userId : string) (createdAt : datetime)
    (events : option (list json)) (state : option json) : t :=
  Make id appName userId createdAt
    (match events with Some (e :: es) => e :: es | _ => [] end)
    (match state with Some s => if truthy s then s else JObj [] | None => JObj [] end).

Definition with_events (evs : list json) (s : t) : t :=
  Make (id s) (appName s) (userId s) (createdAt s) evs (state s).
Definition with_state (st : json) (s : t) : t :=
  Make (id s) (appName s) (userId s) (createdAt s) (events s) st.
End Session.

Module EvalCase.
Record t := Make {
  id : string;
  conversation : list json;
  sessionInput : json;
  creationTimestamp : datetime
}.
End EvalCase.

Module EvalSet.
Record t := Make {
  id : string;
  name : string;
  cases : list EvalCase.t
}.

(** [__init__]: [cases or []] *)
Definition init (id name : string) (cases : option (list EvalCase.t)) : t :=
  Make id name (match cases with Some cs => cs | None => [] end).
End EvalSet.

Module Artifact.
Record t := Make {
  id : string;
  name : string;
  content : json;
  version : string;
  createdAt : datetime
}.
End Artifact.

(** ** The process state and the handler monad *)

(** The module-level variables of main.py, with the two streams that
    [uuid.uuid4()] and [datetime.now()] read from.  The list of open web
    sockets is left out: only the echo socket touches it. *)
Record World := MkWorld {
  sessions : gmap string Session.t;
  eval_sets : list (string * EvalSet.t);
  apps : list string;
  artifacts : gmap string Artifact.t;
  REMOTE_AGENT_URL : string;
  uuid_stream : nat -> Z;
  clock : nat -> datetime
}.

Definition set_sessions (f : gmap string Session.t -> gmap string Session.t)
    (w : World) : World :=
  MkWorld (f (sessions w)) (eval_sets w) (apps w) (artifacts w) (REMOTE_AGENT_URL w)
    (uuid_stream w) (clock w).

Definition set_eval_sets (f : list (string * EvalSet.t) -> list (string * EvalSet.t))
    (w : World) : World :=
  MkWorld (sessions w) (f (eval_sets w)) (apps w) (artifacts w) (REMOTE_AGENT_URL w)
    (uuid_stream w) (clock w).

(** [d[key] = v] on an insertion-ordered dict: an existing key keeps its
    place, a new one goes last. *)
Fixpoint dict_set {V} (items : list (string * V)) (key : string) (v : V)
    : list (string * V) :=
  match items with
  | [] => [(key, v)]
  | (k, x) :: rest =>
      if bool_decide (k = key) then (k, v) :: rest else (k, x) :: dict_set rest key v
  end.

Section Monad.
Context {S E : Type}.

Definition ST (A : Type) : Type := S -> result E A * S.

Definition ret {A} (a : A) : ST A := fun s => (Ok a, s).
Definition raise {A} (e : E) : ST A := fun s => (Raise e, s).
Definition bind {A B} (m : ST A) (k : A -> ST B) : ST B :=
  fun s => match m s with
           | (Ok a, s') => k a s'
           | (Raise e, s') => (Raise e, s')
           end.
Definition gets {A} (f : S -> A) : ST A := fun s => (Ok (f s), s).
Definition modify (f : S -> S) : ST unit := fun s => (Ok tt, f s).
Definition lift {A} (r : result E A) : ST A := fun s => (r, s).
End Monad.
Arguments ST : clear implicits.

(** [try: body except <classes accepted by catches> as e: handler e]; the
    state the body reached when it raised is the one the handler starts
    from. *)
Definition try_except {S E A} (body : ST S E A) (catches : E -> bool)
    (handler : E -> ST S E A) : ST S E A :=
  fun s => match body s with
           | (Ok a, s') => (Ok a, s')
           | (Raise e, s') => if catches e then handler e s' else (Raise e, s')
           end.

Declare Scope st_scope.
Delimit Scope st_scope with st.
Notation "'let*' x ':=' m 'in' k" := (bind m (fun x => k))
  (at level 10, x name, m at level 100, k at level 200) : st_scope.
Notation "m ';;;' k" := (bind m (fun _ => k))
  (at level 100, k at level 200, right associativity) : st_scope.

(** [uuid.uuid4()] *)
Definition uuid4 {E} : ST World E Z :=
  fun w => (Ok (uuid_stream w 0%nat),
            MkWorld (sessions w) (eval_sets w) (apps w) (artifacts w) (REMOTE_AGENT_URL w)
              (fun i => uuid_stream w (Datatypes.S i)) (clock w)).

(** [datetime.now()] *)
Definition now {E} : ST World E datetime :=
  fun w => (Ok (clock w 0%nat),
            MkWorld (sessions w) (eval_sets w) (apps w) (artifacts w) (REMOTE_AGENT_URL w)
              (uuid_stream w) (fun i => clock w (Datatypes.S i))).


(** ** The chat turn: backend/main.py, run_sse *)

(** Pattern 1 of the extraction, lines 233-240:
    [result.artifacts[0].parts[0].text], or [None]. *)
Definition pattern_1 (agent_response : json) : result exn json :=
  (let? result := get agent_response "result" (JObj []) in
   let? artifacts := get result "artifacts" (JArr []) in
   if truthy artifacts then
     let? n := len artifacts in
     if (0 <? n)%nat then
       let? first_artifact := item0 artifacts in
       let? parts := get first_artifact "parts" (JArr []) in
       if truthy parts then
         let? m := len parts in
         if (0 <? m)%nat then
           let? part0 := item0 parts in
           get part0 "text" JNull
         else Ok JNull
       else Ok JNull
     else Ok JNull
   else Ok JNull)%result.

(** The text of the reply of the remote agent, lines 231-262 of main.py:
    five places are probed in order and the first truthy value is kept. *)
Definition extract_text (agent_response : json) : result exn json :=
  (let? agent_text := pattern_1 agent_response in
   let? agent_text :=
     (if negb (truthy agent_text) then get agent_response "text" JNull
      else Ok agent_text) in
   let? agent_text :=
     (if negb (truthy agent_text) then
        let? content := get agent_response "content" (JObj []) in
        get content "text" JNull
      else Ok agent_text) in
   let? agent_text :=
     (if negb (truthy agent_text) then
        let? message := get agent_response "message" (JObj []) in
        get message "content" JNull
      else Ok agent_text) in
   let? agent_text :=
     (if negb (truthy agent_text) then get agent_response "response" JNull
      else Ok agent_text) in
   Ok (if negb (truthy agent_text) then
         JStr ("Received response but no text field found. Raw response: "
                 +:+ dumps agent_response)
       else agent_text))%result.

(** The text part of the outbound message, line 201. *)
Definition message_text (new_message : json) : result exn json :=
  (let? has_parts := get new_message "parts" JNull in
   if truthy has_parts then
     let? parts := get new_message "parts" (JArr [JObj []]) in
     let? part0 := item0 parts in
     get part0 "text" (JStr "Hello")
   else get new_message "text" (JStr "Hello"))%result.

(** The envelope sent to the remote agent, lines 192-211. *)
Definition agent_request (id message_id : Z) (session_id app_name user_id : string)
    (text : json) : json :=
  JObj [("id", JStr ("msg-" +:+ str_uuid id));
        ("params", JObj [
           ("message", JObj [
              ("messageId", JStr ("msg-" +:+ str_uuid message_id));
              ("role", JStr "user");
              ("parts", JArr [JObj [("type", JStr "text"); ("text", text)]]);
              ("contextId", JStr ("context-" +:+ session_id));
              ("sessionId", JStr session_id)]);
           ("sessionId", JStr session_id);
           ("appName", JStr app_name);
           ("userId", JStr user_id)])].

(** The frame the front end reads: [chunkJson.content.parts[].text]. *)
Definition content_of (text : json) : json :=
  JObj [("parts", JArr [JObj [("text", text)]])].

Definition frame (id : Z) (text : json) : json :=
  JObj [("id", JStr (str_uuid id)); ("author", JStr "model"); ("content", content_of text)].

(** [agent_text[:100] + "..." if len(agent_text) > 100 else agent_text] *)
Definition last_agent_response (agent_text : json) : result exn json :=
  (let? n := len agent_text in
   if (100 <? n)%nat then
     let? head := slice_to 100 agent_text in
     add_str head "..."
   else Ok agent_text)%result.

Definition user_event (id : Z) (timestamp : datetime) (new_message : json)
    (session_id : string) : json :=
  JObj [("id", JStr (str_uuid id));
        ("timestamp", JStr (isoformat timestamp));
        ("type", JStr "user_message");
        ("role", JStr "user");
        ("content", new_message);
        ("sessionId", JStr session_id)].

Definition agent_event (id : Z) (timestamp : datetime) (content : json)
    (session_id : string) (agent_response : json) : json :=
  JObj [("id", JStr (str_uuid id));
        ("timestamp", JStr (isoformat timestamp));
        ("type", JStr "agent_response");
        ("role", JStr "assistant");
        ("content", content);
        ("sessionId", JStr session_id);
        ("rawResponse", agent_response)].

Definition state_snapshot (last_activity : datetime) (message_count : nat)
    (last_response : json) : json :=
  JObj [("lastActivity", JStr (isoformat last_activity));
        ("messageCount", JInt (Z.of_nat message_count));
        ("lastAgentResponse", last_response)].

(** What [await client.post(...)] and [response.json()] come to. *)
Inductive post_outcome :=
| Response (status_code : Z) (text : string) (json_body : result exn json)
| PostRaises (e : exn).

(** The body of a chat request as the handler reads it; a key that is absent
    is [None].  The three names are strings, as AgentRunRequest declares. *)
Record ChatRequest := MkChatRequest {
  appName : option string;
  userId : option string;
  sessionId : option string;
  newMessage : option json
}.

(** One run of the generator: the process state, the frames yielded so far
    and the envelopes posted so far. *)
Record Run := MkRun {
  world : World;
  yielded : list string;
  posted : list (string * json)
}.

Definition in_world {E A} (m : ST World E A) : ST Run E A :=
  fun r => let (a, w') := m (world r) in (a, MkRun w' (yielded r) (posted r)).

Definition yield {E} (data : string) : ST Run E unit :=
  modify (fun r => MkRun (world r) (yielded r ++ [data]) (posted r)).

Definition post {E} (url : string) (envelope : json) : ST Run E unit :=
  modify (fun r => MkRun (world r) (yielded r) (posted r ++ [(url, envelope)])).

Definition is_request_error (e : exn) : bool :=
  match exn_cls e with RequestError => true | _ => false end.

Definition append_event (ev : json) (s : Session.t) : Session.t :=
  Session.with_events (Session.events s ++ [ev]) s.

Definition event_count (session_id : string) (w : World) : nat :=
  match sessions w !! session_id with
  | Some s => length (Session.events s)
  | None => O
  end.

Section RunSse.
Variables (app_name user_id session_id : string) (new_message : json).
Variable outcome : post_outcome.

Local Open Scope st_scope.

(** Lines 229-318: the reply is read, logged in the session and sent on. *)
Definition reply_200 (agent_response : json) : ST Run exn unit :=
  try_except
    (let* agent_text := lift (extract_text agent_response) in
     let* response_id := in_world uuid4 in
     let formatted_response := frame response_id agent_text in
     let* agent_event_id := in_world uuid4 in
     let* t := in_world now in
     in_world (modify (set_sessions (alter
       (append_event (agent_event agent_event_id t (content_of agent_text)
                        session_id agent_response)) session_id))) ;;;
     let* last_activity := in_world now in
     let* message_count := in_world (gets (event_count session_id)) in
     let* last_response := lift (last_agent_response agent_text) in
     in_world (modify (set_sessions (alter
       (Session.with_state (state_snapshot last_activity message_count last_response))
       session_id))) ;;;
     yield (dumps formatted_response))
    (fun _ => true)
    (fun parse_error =>
       let* fallback_id := in_world uuid4 in
       yield (dumps (frame fallback_id
                (JStr ("Error parsing response: " +:+ exn_str parse_error))))).

Definition generate_sse_response : ST Run exn unit :=
  try_except
    (let* known := in_world (gets (fun w => sessions w !! session_id)) in
     match known with
     | None =>
         let* t := in_world now in
         in_world (modify (set_sessions (insert session_id
           (Session.init session_id app_name user_id t None None))))
     | Some _ => ret tt
     end ;;;
     let* user_event_id := in_world uuid4 in
     let* t := in_world now in
     in_world (modify (set_sessions (alter
       (append_event (user_event user_event_id t new_message session_id))
       session_id))) ;;;
     let* request_id := in_world uuid4 in
     let* message_id := in_world uuid4 in
     let* text := lift (message_text new_message) in
     let* url := in_world (gets REMOTE_AGENT_URL) in
     post url (agent_request request_id message_id session_id app_name user_id text) ;;;
     match outcome with
     | PostRaises e => raise e
     | Response status_code text json_body =>
         if status_code =? 200 then
           let* agent_response := lift json_body in
           reply_200 agent_response
         else
           let* error_id := in_world uuid4 in
           yield (dumps (frame error_id
                    (JStr ("Agent error: " +:+ pretty status_code))))
     end)
    (fun _ => true)
    (fun e =>
       if is_request_error e then
         let* fallback_id := in_world uuid4 in
         yield (dumps (frame fallback_id (JStr
           "Could not connect to remote agent. Please check if the agent is running on port 8080.")))
       else
         let* error_id := in_world uuid4 in
         yield (dumps (frame error_id (JStr ("Unexpected error: " +:+ exn_str e))))).
End RunSse.

(** [run_sse(request)]: the fields are read with their defaults and the
    generator is run to its end on the outcome of the outbound call. *)
Definition run_sse (request : ChatRequest) (outcome : post_outcome) (w : World)
    : result exn unit * Run :=
  generate_sse_response
    (default "unknown" (appName request))
    (default "unknown" (userId request))
    (default "unknown" (sessionId request))
    (default (JObj []) (newMessage request))
    outcome
    (MkRun w [] []).

(** ** Session management and evaluation sets *)

Record HTTPException := MkHTTPException { status_code : Z; detail : string }.

Definition session_view (session : Session.t) : json :=
  JObj [("id", JStr (Session.id session));
        ("appName", JStr (Session.appName session));
        ("userId", JStr (Session.userId session));
        ("createdAt", JStr (isoformat (Session.createdAt session)));
        ("events", JArr (Session.events session));
        ("state", Session.state session)].

(** [session_id in ["undefined", "null", ""]] *)
Definition is_unset (session_id : string) : bool :=
  bool_decide (session_id ∈ ["undefined"; "null"; ""]).

Section Handlers.
Local Open Scope st_scope.

Definition create_session (app_name user_id : string) : ST World HTTPException json :=
  let* u := uuid4 in
  let session_id := str_uuid u in
  let* t := now in
  let session := Session.init session_id app_name user_id t None None in
  modify (set_sessions (insert session_id session)) ;;;
  ret (JObj [("sessionId", JStr session_id); ("status", JStr "created")]).

Definition get_session (app_name user_id session_id : string)
    : ST World HTTPException json :=
  if is_unset session_id then
    let* u := uuid4 in
    let new_session_id := str_uuid u in
    let* t := now in
    let session := Session.init new_session_id app_name user_id t None None in
    modify (set_sessions (insert new_session_id session)) ;;;
    ret (session_view session)
  else
    let* found := gets (fun w => sessions w !! session_id) in
    match found with
    | None => raise (MkHTTPException 404 "Session not found")
    | Some session =>
        if negb (bool_decide (Session.userId session = user_id))
           || negb (bool_decide (Session.appName session = app_name))
        then raise (MkHTTPException 403 "Access denied")
        else ret (session_view session)
    end.

Definition delete_session (app_name user_id session_id : string)
    : ST World HTTPException json :=
  let* found := gets (fun w => sessions w !! session_id) in
  match found with
  | None => raise (MkHTTPException 404 "Session not found")
  | Some session =>
      if negb (bool_decide (Session.userId session = user_id))
         || negb (bool_decide (Session.appName session = app_name))
      then raise (MkHTTPException 403 "Access denied")
      else
        modify (set_sessions (delete session_id)) ;;;
        ret (JObj [("status", JStr "deleted")])
  end.

Definition eval_set_summary (eval_set : EvalSet.t) : json :=
  JObj [("id", JStr (EvalSet.id eval_set));
        ("name", JStr (EvalSet.name eval_set));
        ("caseCount", JInt (Z.of_nat (length (EvalSet.cases eval_set))))].

Definition get_eval_sets (app_name : string) : ST World HTTPException json :=
  let* sets := gets eval_sets in
  let app_eval_sets := map (fun kv => eval_set_summary (snd kv)) sets in
  ret (JObj [("evalSets", JArr app_eval_sets)]).

Definition create_eval_set (app_name eval_set_id : string)
    : ST World HTTPException json :=
  let eval_set := EvalSet.init eval_set_id eval_set_id None in
  modify (set_eval_sets (fun sets => dict_set sets eval_set_id eval_set)) ;;;
  ret (JObj [("status", JStr "created"); ("evalSetId", JStr eval_set_id)]).

Definition eval_case_dict (c : EvalCase.t) : json :=
  JObj [("id", JStr (EvalCase.id c));
        ("conversation", JArr (EvalCase.conversation c));
        ("sessionInput", EvalCase.sessionInput c);
        ("creationTimestamp", JStr (isoformat (EvalCase.creationTimestamp c)))].

Definition list_eval_cases (app_name eval_set_id : string)
    : ST World HTTPException json :=
  let* sets := gets eval_sets in
  match dict_lookup sets eval_set_id with
  | None => raise (MkHTTPException 404 "Eval set not found")
  | Some eval_set => ret (JObj [("cases", JArr (map eval_case_dict (EvalSet.cases eval_set)))])
  end.

Definition add_session_to_eval (app_name eval_set_id : string) (request : json)
    : ST World HTTPException json :=
  ret (JObj [("status", JStr "added")]).
End Handlers.


(** ** The response normaliser as the specification words it *)

(** A rule follows a path through the response; a key that is missing, or
    a value that is not of the kind the path needs, means that the rule
    does not match. *)
Module Normalizer.
Definition key (k : string) (v : json) : option json :=
  match v with
  | JObj items => dict_lookup items k
  | _ => None
  end.

Definition first (v : json) : option json :=
  match v with
  | JArr (x :: _) => Some x
  | _ => None
  end.

Definition nonempty_string (v : json) : option string :=
  match v with
  | JStr s => if bool_decide (s = "") then None else Some s
  | _ => None
  end.

(** [path [p1; ...; pn] v] follows [v.p1. ... .pn]. *)
Fixpoint path (steps : list (json -> option json)) (v : json) : option json :=
  match steps with
  | [] => Some v
  | step :: rest =>
      match step v with
      | Some x => path rest x
      | None => None
      end
  end.

Definition rule (steps : list (json -> option json)) (v : json) : option string :=
  match path steps v with
  | Some x => nonempty_string x
  | None => None
  end.

Definition rules : list (json -> option string) :=
  [ rule [key "result"; key "artifacts"; first; key "parts"; first; key "text"];
    rule [key "text"];
    rule [key "content"; key "text"];
    rule [key "message"; key "content"];
    rule [key "response"] ].

Definition diagnostic (rawResponse : json) : string :=
  "Received response but no text field found. Raw response: " +:+ dumps rawResponse.

Fixpoint first_match (rs : list (json -> option string)) (rawResponse : json)
    : option string :=
  match rs with
  | [] => None
  | r :: rest =>
      match r rawResponse with
      | Some s => Some s
      | None => first_match rest rawResponse
      end
  end.

Definition extractText (rawResponse : json) : string :=
  default (diagnostic rawResponse) (first_match rules rawResponse).
End Normalizer.

(** A response follows the expected shape when every place the normaliser
    probes is either absent or of the kind the path needs: an object at
    [result], [content], [message], a list of objects at [artifacts] and
    [parts], and a string or [null] where a text is read. *)
Definition field_ok (items : list (string * json)) (k : string) (ok : json -> bool) : bool :=
  match dict_lookup items k with
  | Some v => ok v
  | None => true
  end.

Definition is_text (v : json) : bool :=
  match v with
  | JNull | JStr _ => true
  | _ => false
  end.

Definition object_with (k : string) (ok : json -> bool) (v : json) : bool :=
  match v with
  | JObj items => field_ok items k ok
  | _ => false
  end.

Definition list_of_objects_with (k : string) (ok : json -> bool) (v : json) : bool :=
  match v with
  | JArr [] => true
  | JArr (x :: _) => object_with k ok x
  | _ => false
  end.

Definition conforming (agent_response : json) : bool :=
  object_with "result"
    (object_with "artifacts" (list_of_objects_with "parts" (list_of_objects_with "text" is_text)))
    agent_response
  && object_with "text" is_text agent_response
  && object_with "content" (object_with "text" is_text) agent_response
  && object_with "message" (object_with "content" is_text) agent_response
  && object_with "response" is_text agent_response.


(** The extraction returns a string that is not empty. *)
Definition returns_nonempty_string (agent_response : json) : Prop :=
  exists s, extract_text agent_response = Ok (JStr s) /\ s <> "".

(** ** The text of the caller as the specification words it *)

(** The text the caller supplied in [newMessage], which is either
    [{parts: [{text}]}] or [{text}]: [parts[0].text] where [parts] starts
    with an object, else the top-level [text]; [None] where that key is
    absent. *)
Definition supplied_text (items : list (string * json)) : option json :=
  match dict_lookup items "parts" with
  | Some (JArr (JObj part0 :: _)) => dict_lookup part0 "text"
  | _ => dict_lookup items "text"
  end.

(** [parts], when present and truthy, is a list that starts with an object. *)
Definition message_shape (items : list (string * json)) : bool :=
  match dict_lookup items "parts" with
  | Some (JArr (JObj _ :: _)) => true
  | Some v => negb (truthy v)
  | None => true
  end.

(** ** States and requests used in the examples *)

(** The module-level state when the process starts, lines 22 and 51-54. *)
Definition initial_world (uuids : nat -> Z) (times : nat -> datetime) : World :=
  MkWorld ∅ [] ["sample-app"; "demo-agent"; "test-application"] ∅
    "http://localhost:8080" uuids times.

Definition noon : datetime := Datetime 2024 1 1 12 0 0 0.

Definition world0 : World := initial_world (fun i => Z.of_nat i) (fun _ => noon).

Definition chat_request (session_id : string) (new_message : json) : ChatRequest :=
  MkChatRequest (Some "a") (Some "alice") (Some session_id) (Some new_message).

Definition replies (agent_response : json) : post_outcome :=
  Response 200 "" (Ok agent_response).

(** After alice has created a session in app [a]. *)
Definition world1 : World := (create_session "a" "alice" world0).2.

(** After alice has sent a chat request whose session id is [undefined]. *)
Definition world_undefined : World :=
  world (run_sse (chat_request "undefined" (JObj [("text", JStr "hi")]))
           (replies (JObj [("text", JStr "hello")])) world0).2.

(** ** The other handlers of main.py *)

(** [v[key]] for one of the plain keys the handlers index with *)
Definition getitem (v : json) (key : string) : result exn json :=
  match v with
  | JObj items =>
      match dict_lookup items key with
      | Some x => Ok x
      | None => Raise (Exn KeyError ("'" +:+ key +:+ "'"))
      end
  | JStr _ => Raise (Exn TypeError "string indices must be integers, not 'str'")
  | JArr _ => Raise (Exn TypeError "list indices must be integers or slices, not str")
  | _ => Raise (Exn TypeError ("'" +:+ type_name v +:+ "' object is not subscriptable"))
  end.

(** [v == s] for a [str] [s] *)
Definition eq_str (v : json) (s : string) : bool :=
  match v with
  | JStr t => bool_decide (t = s)
  | _ => false
  end.

Definition set_remote_agent_url (url : string) (w : World) : World :=
  MkWorld (sessions w) (eval_sets w) (apps w) (artifacts w) url (uuid_stream w) (clock w).

(** The body of a configuration request; the url, when present, is a
    string. *)
Record AgentUrlConfig := MkAgentUrlConfig { url : option string }.

(** One entry of the trace of a session, lines 536-543. *)
Definition trace_event (event : json) : result exn json :=
  (let? id := getitem event "id" in
   let? timestamp := getitem event "timestamp" in
   let? type := getitem event "type" in
   let? role := getitem event "role" in
   let? content := get event "content" (JObj []) in
   let? sessionId := getitem event "sessionId" in
   Ok (JObj [("id", id); ("timestamp", timestamp); ("type", type); ("role", role);
             ("content", content); ("sessionId", sessionId)]))%result.

Fixpoint trace_events (events : list json) : result exn (list json) :=
  match events with
  | [] => Ok []
  | event :: rest =>
      (let? entry := trace_event event in
       let? entries := trace_events rest in
       Ok (entry :: entries))%result
  end.

(** [len([e for e in trace if e["role"] == role])] *)
Fixpoint count_role (role : string) (trace : list json) : result exn nat :=
  match trace with
  | [] => Ok O
  | e :: rest =>
      (let? r := getitem e "role" in
       let? n := count_role role rest in
       Ok (if eq_str r role then Datatypes.S n else n))%result
  end.

Definition session_summary (session : Session.t) : json :=
  JObj [("id", JStr (Session.id session));
        ("appName", JStr (Session.appName session));
        ("userId", JStr (Session.userId session));
        ("createdAt", JStr (isoformat (Session.createdAt session)));
        ("eventCount", JInt (Z.of_nat (length (Session.events session))))].

(** [self.dict()] of an Artifact *)
Definition artifact_dict (a : Artifact.t) : json :=
  JObj [("id", JStr (Artifact.id a));
        ("name", JStr (Artifact.name a));
        ("content", Artifact.content a);
        ("version", JStr (Artifact.version a));
        ("createdAt", JStr (isoformat (Artifact.createdAt a)))].

(** The envelope of the connectivity check, lines 72-87. *)
Definition test_request (text : json) : json :=
  JObj [("id", JStr "msg-test-connection");
        ("params", JObj [
           ("message", JObj [
              ("messageId", JStr "msg-test-connection");
              ("role", JStr "user");
              ("parts", JArr [JObj [("type", JStr "text"); ("text", text)]]);
              ("contextId", JStr "context-test")])])].

Section MoreHandlers.
Local Open Scope st_scope.

Definition root : ST World HTTPException json :=
  let* agent := gets REMOTE_AGENT_URL in
  ret (JObj [("message", JStr "ADK Backend Server"); ("status", JStr "running");
             ("remote_agent", JStr agent)]).

Definition update_agent_url (config : AgentUrlConfig) : ST World HTTPException json :=
  let new_url := default "" (url config) in
  if negb (bool_decide (new_url = "")) then
    modify (set_remote_agent_url new_url) ;;;
    let* current := gets REMOTE_AGENT_URL in
    ret (JObj [("status", JStr "updated"); ("remote_agent_url", JStr current)])
  else raise (MkHTTPException 400 "URL is required").

Definition get_agent_url : ST World HTTPException json :=
  let* current := gets REMOTE_AGENT_URL in
  ret (JObj [("remote_agent_url", JStr current)]).

Definition list_apps (relative_path : string) : ST World HTTPException (list string) :=
  gets apps.

(** Lines 63-125; [message] is [None] when the request has no body. *)
Definition test_agent_connection (message : option json) (outcome : post_outcome)
    : ST Run exn json :=
  let message := default (JObj [("text", JStr "What can you do?")]) message in
  try_except
    (let* text := lift (get message "text" (JStr "Hello, can you hear me?")) in
     let agent_request := test_request text in
     let* agent_url := in_world (gets REMOTE_AGENT_URL) in
     post agent_url agent_request ;;;
     match outcome with
     | PostRaises e => raise e
     | Response status_code text json_body =>
         if status_code =? 200 then
           let* agent_response := lift json_body in
           let* agent_url := in_world (gets REMOTE_AGENT_URL) in
           ret (JObj [("status", JStr "success"); ("remote_agent_url", JStr agent_url);
                      ("request", agent_request); ("response", agent_response)])
         else
           let* agent_url := in_world (gets REMOTE_AGENT_URL) in
           ret (JObj [("status", JStr "error"); ("remote_agent_url", JStr agent_url);
                      ("error", JStr ("HTTP " +:+ pretty status_code +:+ ": " +:+ text))])
     end)
    (fun _ => true)
    (fun e =>
       let* agent_url := in_world (gets REMOTE_AGENT_URL) in
       if is_request_error e then
         ret (JObj [("status", JStr "error"); ("remote_agent_url", JStr agent_url);
                    ("error", JStr ("Connection error: " +:+ exn_str e))])
       else
         ret (JObj [("status", JStr "error"); ("remote_agent_url", JStr agent_url);
                    ("error", JStr ("Unexpected error: " +:+ exn_str e))])).

(** Lines 381-395.  The sessions are listed in the order in which the
    mapping enumerates them; the insertion order of the Python dict is not
    kept by the map of the model. *)
Definition list_sessions (app_name user_id : string) : ST World HTTPException json :=
  let* stored := gets sessions in
  let user_sessions :=
    map session_summary
      (filter (fun session => Session.userId session = user_id
                              /\ Session.appName session = app_name)
         (map snd (map_to_list stored))) in
  ret (JObj [("sessions", JArr user_sessions)]).

(** Lines 451-463; the events of the body, when present, are a list. *)
Definition import_session (app_name user_id : string) (events : option (list json))
    : ST World HTTPException json :=
  let* u := uuid4 in
  let session_id := str_uuid u in
  let* t := now in
  let session :=
    Session.init session_id app_name user_id t (Some (default [] events)) None in
  modify (set_sessions (insert session_id session)) ;;;
  ret (JObj [("sessionId", JStr session_id); ("status", JStr "imported")]).

Definition run_evaluation (app_name eval_set_id : string) (request : json)
    : ST World exn json :=
  let* eval_ids := lift (get request "evalIds" (JArr [])) in
  let* eval_metrics := lift (get request "evalMetrics" (JArr [])) in
  let* result_id := uuid4 in
  ret (JObj [("status", JStr "started"); ("evalResultId", JStr (str_uuid result_id))]).

(** Lines 524-555. *)
Definition get_session_trace (session_id : string) : ST World exn json :=
  if is_unset session_id then
    ret (JObj [("sessionId", JStr session_id); ("trace", JArr []);
               ("performance", JObj []);
               ("message", JStr "No trace available for undefined session")])
  else
    let* found := gets (fun w => sessions w !! session_id) in
    match found with
    | Some session =>
        let* trace := lift (trace_events (Session.events session)) in
        let* user_messages := lift (count_role "user" trace) in
        let* agent_messages := lift (count_role "assistant" trace) in
        ret (JObj [("sessionId", JStr session_id);
                   ("trace", JArr trace);
                   ("performance", JObj [
                      ("totalEvents", JInt (Z.of_nat (length trace)));
                      ("userMessages", JInt (Z.of_nat user_messages));
                      ("agentMessages", JInt (Z.of_nat agent_messages))])])
    | None =>
        ret (JObj [("sessionId", JStr session_id); ("trace", JArr []);
                   ("performance", JObj [])])
    end.

(** Lines 563-577. *)
Definition get_latest_artifact (app_name user_id session_id artifact_name : string)
    : ST World HTTPException json :=
  let artifact_key := session_id +:+ ":" +:+ artifact_name in
  let* found := gets (fun w => artifacts w !! artifact_key) in
  match found with
  | Some artifact => ret (artifact_dict artifact)
  | None =>
      let* u := uuid4 in
      let* t := now in
      ret (JObj [("id", JStr (str_uuid u));
                 ("name", JStr artifact_name);
                 ("content", JObj [("type", JStr "text");
                                   ("data", JStr ("Sample content for " +:+ artifact_name))]);
                 ("version", JStr "1.0");
                 ("createdAt", JStr (isoformat t))])
  end.

(** Lines 579-588. *)
Definition get_artifact_version
    (app_name user_id session_id artifact_name version_id : string)
    : ST World HTTPException json :=
  let* t := now in
  ret (JObj [("id", JStr version_id);
             ("name", JStr artifact_name);
             ("content", JObj [("type", JStr "text");
                               ("data", JStr ("Version " +:+ version_id +:+ " of "
                                                +:+ artifact_name))]);
             ("version", JStr version_id);
             ("createdAt", JStr (isoformat t))]).
End MoreHandlers.

(** ** The states the handlers can reach *)

(** One request served: the state before and the state after.  The
    handlers left out (the fixed answers of the evaluation results, of the
    trace by id and of the event graph, the test stream and the echo
    socket) read and write none of the variables of [World]. *)
Inductive step : World -> World -> Prop :=
| step_root w : step w (root w).2
| step_get_agent_url w : step w (get_agent_url w).2
| step_list_apps relative_path w : step w (list_apps relative_path w).2
| step_update_agent_url config w : step w (update_agent_url config w).2
| step_test_agent_connection message outcome w :
    step w (world (test_agent_connection message outcome (MkRun w [] [])).2)
| step_run_sse request outcome w : step w (world (run_sse request outcome w).2)
| step_create_session app_name user_id w : step w (create_session app_name user_id w).2
| step_list_sessions app_name user_id w : step w (list_sessions app_name user_id w).2
| step_get_session app_name user_id session_id w :
    step w (get_session app_name user_id session_id w).2
| step_delete_session app_name user_id session_id w :
    step w (delete_session app_name user_id session_id w).2
| step_import_session app_name user_id events w :
    step w (import_session app_name user_id events w).2
| step_get_eval_sets app_name w : step w (get_eval_sets app_name w).2
| step_create_eval_set app_name eval_set_id w :
    step w (create_eval_set app_name eval_set_id w).2
| step_list_eval_cases app_name eval_set_id w :
    step w (list_eval_cases app_name eval_set_id w).2
| step_add_session_to_eval app_name eval_set_id request w :
    step w (add_session_to_eval app_name eval_set_id request w).2
| step_run_evaluation app_name eval_set_id request w :
    step w (run_evaluation app_name eval_set_id request w).2
| step_get_session_trace session_id w : step w (get_session_trace session_id w).2
| step_get_latest_artifact app_name user_id session_id artifact_name w :
    step w (get_latest_artifact app_name user_id session_id artifact_name w).2
| step_get_artifact_version app_name user_id session_id artifact_name version_id w :
    step w (get_artifact_version app_name user_id session_id artifact_name version_id w).2.

(** The states reached from the start of the process by any sequence of
    requests, whatever the generated ids, the clock and the remote agent. *)
Inductive reachable : World -> Prop :=
| reachable_start uuids times : reachable (initial_world uuids times)
| reachable_step w w' : reachable w -> step w w' -> reachable w'.

(** An event as the chat turn writes it: a dict with the five keys the trace
    reads and a role that is [user] or [assistant]. *)
Definition event_ok (event : json) : bool :=
  match event with
  | JObj items =>
      match dict_lookup items "id", dict_lookup items "timestamp",
            dict_lookup items "type", dict_lookup items "role",
            dict_lookup items "sessionId" with
      | Some _, Some _, Some _, Some role, Some _ =>
          eq_str role "user" || eq_str role "assistant"
      | _, _, _, _, _ => false
      end
  | _ => false
  end.

(** ** Notions used by the properties of the other handlers *)

(** The text of the frame when the outbound call fails: the call raised,
    the status is not 200, or the body of a 200 reply cannot be decoded. *)
Definition failure_text (outcome : post_outcome) : option string :=
  let caught e :=
    if is_request_error e then
      "Could not connect to remote agent. Please check if the agent is running on port 8080."
    else "Unexpected error: " +:+ exn_str e in
  match outcome with
  | PostRaises e => Some (caught e)
  | Response status_code _ json_body =>
      if status_code =? 200 then
        match json_body with
        | Raise e => Some (caught e)
        | Ok _ => None
        end
      else Some ("Agent error: " +:+ pretty status_code)
  end.

(** The session a chat turn starts from: the stored one, or the one it
    creates. *)
Definition session_before (request : ChatRequest) (w : World) : Session.t :=
  default
    (Session.init (default "unknown" (sessionId request))
       (default "unknown" (appName request)) (default "unknown" (userId request))
       (clock w 0%nat) None None)
    (sessions w !! default "unknown" (sessionId request)).

(** Every event of every stored session can be read by the trace. *)
Definition events_ok (w : World) : Prop :=
  forall k s, sessions w !! k = Some s -> forallb event_ok (Session.events s) = true.

(** Every session is stored under its own id. *)
Definition keys_ok (m : gmap string Session.t) : Prop :=
  forall k s, m !! k = Some s -> Session.id s = k.

(** An evaluation set as [create_eval_set] makes it. *)
Definition fresh_eval_set (kv : string * EvalSet.t) : Prop :=
  EvalSet.cases kv.2 = [] /\ EvalSet.id kv.2 = kv.1 /\ EvalSet.name kv.2 = kv.1.

(** A state in which an evaluation set holds a case. *)
Definition world_with_cases : World :=
  set_eval_sets (fun _ =>
    [("smoke", EvalSet.Make "smoke" "smoke" []);
     ("regression", EvalSet.Make "regression" "regression"
        [EvalCase.Make "c1" [] (JObj []) noon])]) world0.

(** After alice has sent one chat request in session [s1]. *)
Definition world_s1 : World :=
  world (run_sse (chat_request "s1" (JObj [("text", JStr "hi")]))
           (replies (JObj [("text", JStr "hello")])) world0).2.

Definition session_s1 : Session.t :=
  Session.Make "s1" "a" "alice" noon
    [user_event 0 noon (JObj [("text", JStr "hi")]) "s1";
     agent_event 4 noon (content_of (JStr "hello")) "s1" (JObj [("text", JStr "hello")])]
    (state_snapshot noon 2 (JStr "hello")).

(** ** Shapes and texts used by the properties of the chat turn *)

(** A value where a text is read that the extraction takes or passes over
    without raising: a string, or anything falsy. *)
Definition string_or_falsy (v : json) : bool :=
  match v with
  | JStr _ => true
  | _ => negb (truthy v)
  end.

(** A value at [artifacts] or [parts] that the extraction can go through:
    anything falsy, or a list whose first item is an object. *)
Definition falsy_or_objects_with (k : string) (ok : json -> bool) (v : json) : bool :=
  if truthy v then
    match v with
    | JArr (x :: _) => object_with k ok x
    | _ => false
    end
  else true.

(** A response on which no probe of the extraction raises and every text
    it reads is a string or falsy. *)
Definition tolerated (agent_response : json) : bool :=
  object_with "result"
    (object_with "artifacts"
       (falsy_or_objects_with "parts" (falsy_or_objects_with "text" string_or_falsy)))
    agent_response
  && object_with "text" string_or_falsy agent_response
  && object_with "content" (object_with "text" string_or_falsy) agent_response
  && object_with "message" (object_with "content" string_or_falsy) agent_response
  && object_with "response" string_or_falsy agent_response.

(** The text of the frame for an exception caught by the outer handlers
    of the chat turn, lines 334-362. *)
Definition caught_text (e : exn) : string :=
  if is_request_error e then
    "Could not connect to remote agent. Please check if the agent is running on port 8080."
  else "Unexpected error: " +:+ exn_str e.

(** The text of the frame for an exception caught while the reply is
    parsed, lines 303-318. *)
Definition parse_error_text (e : exn) : string :=
  "Error parsing response: " +:+ exn_str e.

(** * Properties *)

(** One step of the monad, with the operations on maps, the serialiser and
    the extraction left folded. *)
Ltac st_step :=
  cbv beta iota zeta delta
    [run_sse generate_sse_response reply_200 try_except bind in_world gets modify lift ret
     raise yield post uuid4 now world yielded posted set_sessions set_eval_sets sessions
     eval_sets apps artifacts REMOTE_AGENT_URL uuid_stream clock event_count];
  cbn [app fst snd].

(** A case split on the next thing that decides the path of the handler. *)
Ltac st_case :=
  match goal with
  | |- context [match ?m !! ?k with _ => _ end] => is_var m; destruct (m !! k) eqn:?
  | |- context [match message_text ?x with _ => _ end] => destruct (message_text x) eqn:?
  | |- context [match extract_text ?x with _ => _ end] => destruct (extract_text x) eqn:?
  | |- context [match last_agent_response ?x with _ => _ end] =>
      destruct (last_agent_response x) eqn:?
  | |- context [if is_request_error ?e then _ else _] => destruct (is_request_error e) eqn:?
  | |- context [if ?z =? 200 then _ else _] => destruct (z =? 200) eqn:?
  | |- context [match ?o with Response _ _ _ => _ | PostRaises _ => _ end] =>
      is_var o; destruct o
  | |- context [match ?r with Ok _ => _ | Raise _ => _ end] => is_var r; destruct r
  end.

Ltac st_run := st_step; repeat (st_case; st_step).


Ltac handler_step :=
  cbv beta iota zeta delta
    [create_session get_session delete_session get_eval_sets create_eval_set
     list_eval_cases add_session_to_eval];
  st_step.

(** The same for the other handlers. *)
Ltac more_step :=
  cbv beta iota zeta delta
    [root update_agent_url get_agent_url list_apps test_agent_connection list_sessions
     import_session run_evaluation get_session_trace get_latest_artifact
     get_artifact_version set_remote_agent_url];
  handler_step.

Ltac more_case :=
  match goal with
  | |- context [if is_unset ?x then _ else _] => destruct (is_unset x) eqn:?
  | |- context [match dict_lookup ?l ?k with _ => _ end] => destruct (dict_lookup l k) eqn:?
  | |- context [match trace_events ?l with _ => _ end] => destruct (trace_events l) eqn:?
  | |- context [match count_role ?r ?l with _ => _ end] => destruct (count_role r l) eqn:?
  | |- context [match get ?a ?b ?c with _ => _ end] => destruct (get a b c) eqn:?
  | |- context [if negb (bool_decide ?P) || _ then _ else _] =>
      destruct (bool_decide P) eqn:?; cbn [negb orb]
  | |- context [if negb (bool_decide ?P) then _ else _] =>
      destruct (bool_decide P) eqn:?; cbn [negb]
  end.

Ltac more_run := more_step; repeat (first [st_case | more_case]; more_step).

Ltac lookup_session :=
  rewrite ?lookup_alter_eq, ?lookup_insert_eq;
  repeat match goal with H : _ !! _ = _ |- _ => rewrite H end;
  cbn [fmap option_fmap option_map].

(** ** Properties of the normaliser *)

Section NormalizerFacts.
Import Normalizer.

Lemma is_text_truthy t :
  is_text t = true -> truthy t = true ->
  exists s, t = JStr s /\ s <> "" /\ nonempty_string t = Some s.
Proof.
  destruct t; try discriminate. intros _ Ht. simpl in *.
  exists s. case_bool_decide; [discriminate | done].
Qed.

Lemma is_text_falsy t :
  is_text t = true -> truthy t = false -> nonempty_string t = None.
Proof.
  destruct t; try discriminate; try done. intros _ Ht. simpl in *.
  case_bool_decide; [done | discriminate].
Qed.

Lemma pattern_1_conforming top :
  field_ok top "result"
    (object_with "artifacts"
       (list_of_objects_with "parts" (list_of_objects_with "text" is_text))) = true ->
  exists t, pattern_1 (JObj top) = Ok t /\ is_text t = true /\
    rule [key "result"; key "artifacts"; first; key "parts"; first; key "text"] (JObj top)
    = nonempty_string t.
Proof.
  unfold field_ok, pattern_1, rule. simpl.
  destruct (dict_lookup top "result") as [r|]; [|by exists JNull].
  destruct r as [| | | | |?|ritems]; try discriminate. simpl. unfold field_ok.
  destruct (dict_lookup ritems "artifacts") as [a|]; [|by exists JNull].
  destruct a as [| | | | |[|a0 ?]|?]; try discriminate; [by exists JNull|].
  destruct a0 as [| | | | |?|aitems]; try discriminate. simpl. unfold field_ok.
  destruct (dict_lookup aitems "parts") as [p|]; [|by exists JNull].
  destruct p as [| | | | |[|p0 ?]|?]; try discriminate; [by exists JNull|].
  destruct p0 as [| | | | |?|pitems]; try discriminate. simpl. unfold field_ok.
  destruct (dict_lookup pitems "text") as [x|]; [|by exists JNull].
  intros Hx. by exists x.
Qed.

(** A probe of one top-level key, or of one key below a top-level object. *)
Lemma probe_top top k :
  field_ok top k is_text = true ->
  exists t, get (JObj top) k JNull = Ok t /\ is_text t = true /\
    rule [key k] (JObj top) = nonempty_string t.
Proof.
  unfold field_ok, rule. simpl.
  destruct (dict_lookup top k) as [x|]; [|by exists JNull].
  intros Hx. by exists x.
Qed.

Lemma probe_nested top k1 k2 :
  field_ok top k1 (object_with k2 is_text) = true ->
  exists t, (let? o := get (JObj top) k1 (JObj []) in get o k2 JNull)%result = Ok t /\
    is_text t = true /\
    rule [key k1; key k2] (JObj top) = nonempty_string t.
Proof.
  unfold field_ok, rule. simpl.
  destruct (dict_lookup top k1) as [o|]; [|by exists JNull].
  destruct o as [| | | | |?|oitems]; try discriminate. simpl. unfold field_ok.
  destruct (dict_lookup oitems k2) as [x|]; [|by exists JNull].
  intros Hx. by exists x.
Qed.

Lemma extract_text_conforming v :
  conforming v = true -> extract_text v = Ok (JStr (extractText v)).
Proof.
  unfold conforming. intros H.
  repeat (apply andb_prop in H; destruct H as [H ?]).
  destruct v as [| | | | |?|top]; try discriminate.
  unfold object_with in *.
  destruct (pattern_1_conforming top) as (t1 & E1 & T1 & R1); [done|].
  destruct (probe_top top "text") as (t2 & E2 & T2 & R2); [done|].
  destruct (probe_nested top "content" "text") as (t3 & E3 & T3 & R3); [done|].
  destruct (probe_nested top "message" "content") as (t4 & E4 & T4 & R4); [done|].
  destruct (probe_top top "response") as (t5 & E5 & T5 & R5); [done|].
  unfold extract_text, extractText, rules.
  cbn [first_match]. rewrite R1, R2, R3, R4, R5.
  rewrite E1. cbn [rbind].
  destruct (truthy t1) eqn:B1; cbn [negb rbind].
  { repeat (rewrite B1; cbn [negb rbind]).
    by destruct (is_text_truthy t1) as (s & -> & _ & ->). }
  rewrite (is_text_falsy t1), E2 by done. cbn [rbind].
  destruct (truthy t2) eqn:B2; cbn [negb rbind].
  { repeat (rewrite B2; cbn [negb rbind]).
    by destruct (is_text_truthy t2) as (s & -> & _ & ->). }
  rewrite (is_text_falsy t2), E3 by done. cbn [rbind].
  destruct (truthy t3) eqn:B3; cbn [negb rbind].
  { repeat (rewrite B3; cbn [negb rbind]).
    by destruct (is_text_truthy t3) as (s & -> & _ & ->). }
  rewrite (is_text_falsy t3), E4 by done. cbn [rbind].
  destruct (truthy t4) eqn:B4; cbn [negb rbind].
  { repeat (rewrite B4; cbn [negb rbind]).
    by destruct (is_text_truthy t4) as (s & -> & _ & ->). }
  rewrite (is_text_falsy t4), E5 by done. cbn [rbind].
  destruct (truthy t5) eqn:B5; cbn [negb].
  { by destruct (is_text_truthy t5) as (s & -> & _ & ->). }
  by rewrite (is_text_falsy t5).
Qed.

Lemma rule_nonempty steps v s : rule steps v = Some s -> s <> "".
Proof.
  unfold rule. destruct (path steps v) as [x|]; [|done].
  destruct x; try done. simpl. case_bool_decide; [done|]. by intros [= <-].
Qed.

Lemma extractText_nonempty v : extractText v <> "".
Proof.
  unfold extractText, rules. cbn [first_match].
  repeat match goal with
         | |- context [rule ?steps v] =>
             let E := fresh "E" in
             destruct (rule steps v) eqn:E;
               [apply rule_nonempty in E; exact E|]
         end.
  done.
Qed.

(** Whatever the extraction returns is truthy: the diagnostic text stands
    in for every falsy value. *)
Lemma extract_text_truthy v t : extract_text v = Ok t -> truthy t = true.
Proof.
  unfold extract_text.
  repeat match goal with
         | |- context [rbind ?r _] => destruct r; cbn [rbind]; try discriminate
         end.
  intros [= <-]. by destruct (truthy a3) eqn:B.
Qed.
End NormalizerFacts.

(** C2, as stated, fails: where [result] is a string, or [null], the
    extraction raises AttributeError, which the handler around it catches. *)
Lemma extract_text_raises_on_wrong_type :
  extract_text (JObj [("result", JStr "oops")])
  = Raise (Exn AttributeError "'str' object has no attribute 'get'")
  /\ extract_text (JObj [("result", JNull)])
     = Raise (Exn AttributeError "'NoneType' object has no attribute 'get'")
  /\ ~ returns_nonempty_string (JObj [("result", JStr "oops")]).
Proof.
  split; [reflexivity|]. split; [reflexivity|]. intros (s & E & _). discriminate E.
Qed.

(** ** The extraction on tolerated responses *)

Section Tolerated.
Import Normalizer.

Lemma string_or_falsy_truthy t :
  string_or_falsy t = true -> truthy t = true ->
  exists s, t = JStr s /\ nonempty_string t = Some s.
Proof.
  destruct t as [| | | |s| |]; cbn [string_or_falsy]; intros Hs Ht;
    try (rewrite Ht in Hs; discriminate Hs).
  exists s. split; [done|]. cbn in *. by case_bool_decide.
Qed.

Lemma string_or_falsy_falsy t :
  string_or_falsy t = true -> truthy t = false -> nonempty_string t = None.
Proof.
  destruct t as [| | | |s| |]; try done. intros _ Ht. cbn in *.
  case_bool_decide; [done | discriminate].
Qed.

Lemma first_falsy v : truthy v = false -> first v = None.
Proof. by destruct v as [| | | | |[|? ?]|]. Qed.

Lemma pattern_1_tolerated top :
  field_ok top "result"
    (object_with "artifacts"
       (falsy_or_objects_with "parts" (falsy_or_objects_with "text" string_or_falsy))) = true ->
  exists t, pattern_1 (JObj top) = Ok t /\ string_or_falsy t = true /\
    rule [key "result"; key "artifacts"; first; key "parts"; first; key "text"] (JObj top)
    = nonempty_string t.
Proof.
  unfold field_ok, pattern_1, rule. cbn [get rbind path key].
  destruct (dict_lookup top "result") as [r|]; [|by exists JNull].
  destruct r as [| | | | |?|ritems]; try discriminate. cbn [object_with get rbind key].
  unfold field_ok.
  destruct (dict_lookup ritems "artifacts") as [a|]; [|by exists JNull].
  unfold falsy_or_objects_with at 1.
  destruct (truthy a) eqn:Ha; [|intros _; exists JNull; by rewrite (first_falsy a Ha)].
  destruct a as [| | | | |[|a0 ?]|?]; try discriminate.
  destruct a0 as [| | | | |?|aitems]; try discriminate.
  cbn [object_with len rbind length Nat.ltb Nat.leb item0 get first key]. unfold field_ok.
  destruct (dict_lookup aitems "parts") as [p|]; [|by exists JNull].
  unfold falsy_or_objects_with at 1.
  destruct (truthy p) eqn:Hp; [|intros _; exists JNull; by rewrite (first_falsy p Hp)].
  destruct p as [| | | | |[|p0 ?]|?]; try discriminate.
  destruct p0 as [| | | | |?|pitems]; try discriminate.
  cbn [object_with len rbind length Nat.ltb Nat.leb item0 get first key]. unfold field_ok.
  destruct (dict_lookup pitems "text") as [x|]; [|by exists JNull].
  intros Hx. by exists x.
Qed.

Lemma probe_top_tolerated top k :
  field_ok top k string_or_falsy = true ->
  exists t, get (JObj top) k JNull = Ok t /\ string_or_falsy t = true /\
    rule [key k] (JObj top) = nonempty_string t.
Proof.
  unfold field_ok, rule. simpl.
  destruct (dict_lookup top k) as [x|]; [|by exists JNull].
  intros Hx. by exists x.
Qed.

Lemma probe_nested_tolerated top k1 k2 :
  field_ok top k1 (object_with k2 string_or_falsy) = true ->
  exists t, (let? o := get (JObj top) k1 (JObj []) in get o k2 JNull)%result = Ok t /\
    string_or_falsy t = true /\
    rule [key k1; key k2] (JObj top) = nonempty_string t.
Proof.
  unfold field_ok, rule. simpl.
  destruct (dict_lookup top k1) as [o|]; [|by exists JNull].
  destruct o as [| | | | |?|oitems]; try discriminate. simpl. unfold field_ok.
  destruct (dict_lookup oitems k2) as [x|]; [|by exists JNull].
  intros Hx. by exists x.
Qed.

Lemma extract_text_tolerated v :
  tolerated v = true -> extract_text v = Ok (JStr (extractText v)).
Proof.
  unfold tolerated. intros H.
  repeat (apply andb_prop in H; destruct H as [H ?]).
  destruct v as [| | | | |?|top]; try discriminate.
  unfold object_with in *.
  destruct (pattern_1_tolerated top) as (t1 & E1 & T1 & R1); [done|].
  destruct (probe_top_tolerated top "text") as (t2 & E2 & T2 & R2); [done|].
  destruct (probe_nested_tolerated top "content" "text") as (t3 & E3 & T3 & R3); [done|].
  destruct (probe_nested_tolerated top "message" "content") as (t4 & E4 & T4 & R4); [done|].
  destruct (probe_top_tolerated top "response") as (t5 & E5 & T5 & R5); [done|].
  unfold extract_text, extractText, rules.
  cbn [first_match]. rewrite R1, R2, R3, R4, R5.
  rewrite E1. cbn [rbind].
  destruct (truthy t1) eqn:B1; cbn [negb rbind].
  { repeat (rewrite B1; cbn [negb rbind]).
    by destruct (string_or_falsy_truthy t1) as (s & -> & ->). }
  rewrite (string_or_falsy_falsy t1), E2 by done. cbn [rbind].
  destruct (truthy t2) eqn:B2; cbn [negb rbind].
  { repeat (rewrite B2; cbn [negb rbind]).
    by destruct (string_or_falsy_truthy t2) as (s & -> & ->). }
  rewrite (string_or_falsy_falsy t2), E3 by done. cbn [rbind].
  destruct (truthy t3) eqn:B3; cbn [negb rbind].
  { repeat (rewrite B3; cbn [negb rbind]).
    by destruct (string_or_falsy_truthy t3) as (s & -> & ->). }
  rewrite (string_or_falsy_falsy t3), E4 by done. cbn [rbind].
  destruct (truthy t4) eqn:B4; cbn [negb rbind].
  { repeat (rewrite B4; cbn [negb rbind]).
    by destruct (string_or_falsy_truthy t4) as (s & -> & ->). }
  rewrite (string_or_falsy_falsy t4), E5 by done. cbn [rbind].
  destruct (truthy t5) eqn:B5; cbn [negb].
  { by destruct (string_or_falsy_truthy t5) as (s & -> & ->). }
  by rewrite (string_or_falsy_falsy t5).
Qed.
End Tolerated.

(** C2, amended: whatever the extraction returns is truthy, so never an
    empty string; and on every response in which result, content and
    message are each absent or an object, artifacts and parts are each
    absent, falsy or a list whose first item is an object, and every text
    that is read is absent, a string or falsy, the extraction does not
    raise and returns a string that is not empty. *)
Theorem extract_text_total_on_conforming (agent_response : json) :
  (tolerated agent_response = true -> returns_nonempty_string agent_response)
  /\ (forall t, extract_text agent_response = Ok t -> truthy t = true).
Proof.
  split.
  - intros H. exists (Normalizer.extractText agent_response). split.
    + by apply extract_text_tolerated.
    + apply extractText_nonempty.
  - apply extract_text_truthy.
Qed.

Lemma extract_text_total_on_conforming_witness :
  tolerated (JObj [("result", JObj [("artifacts", JNull)]); ("text", JBool false);
                   ("message", JObj [("content", JStr "hello")])]) = true
  /\ returns_nonempty_string
       (JObj [("result", JObj [("artifacts", JNull)]); ("text", JBool false);
              ("message", JObj [("content", JStr "hello")])]).
Proof.
  split; [reflexivity|].
  apply (extract_text_total_on_conforming
           (JObj [("result", JObj [("artifacts", JNull)]); ("text", JBool false);
                  ("message", JObj [("content", JStr "hello")])])).
  reflexivity.
Defined.

(** C3, as stated, fails: a list under [text] is no string, so no rule of
    the specification matches it, yet the code returns the list. *)
Lemma extract_text_keeps_non_string :
  extract_text (JObj [("text", JArr [JStr "x"])]) = Ok (JArr [JStr "x"])
  /\ extract_text (JObj [("text", JArr [JStr "x"])])
     <> Ok (JStr (Normalizer.extractText (JObj [("text", JArr [JStr "x"])]))).
Proof.
  split; [reflexivity|]. discriminate.
Qed.

(** C3, amended: on every response that follows the expected shape the code
    returns what the ordered rules of the specification return, the first
    rule that yields a non-empty string and else the diagnostic text with
    the serialised response; the three examples of the specification hold. *)
Theorem extract_text_refines_rules :
  (forall agent_response,
     conforming agent_response = true ->
     extract_text agent_response = Ok (JStr (Normalizer.extractText agent_response)))
  /\ extract_text
       (JObj [("result", JObj [("artifacts",
          JArr [JObj [("parts", JArr [JObj [("text", JStr "hi")]])]])])])
     = Ok (JStr "hi")
  /\ extract_text (JObj [("text", JStr "hi")]) = Ok (JStr "hi")
  /\ extract_text (JObj [])
     = Ok (JStr "Received response but no text field found. Raw response: {}").
Proof.
  split; [exact extract_text_conforming|]. repeat split; reflexivity.
Qed.

Lemma extract_text_refines_rules_witness :
  conforming (JObj [("content", JObj [("text", JStr "")]); ("response", JStr "pong")]) = true
  /\ extract_text (JObj [("content", JObj [("text", JStr "")]); ("response", JStr "pong")])
     = Ok (JStr "pong").
Proof.
  split; [reflexivity|].
  exact (proj1 extract_text_refines_rules
           (JObj [("content", JObj [("text", JStr "")]); ("response", JStr "pong")])
           eq_refl).
Defined.

(** ** The chat turn *)

Section ChatTurn.
Variables (app_name user_id session_id : string) (new_message : json).

(** Every path of the generator ends normally after one frame. *)
Lemma generate_sse_response_frames outcome w :
  exists id text run,
    generate_sse_response app_name user_id session_id new_message outcome (MkRun w [] [])
    = (Ok tt, run)
    /\ yielded run = [dumps (frame id text)]
    /\ ((exists s, text = JStr s)
        \/ exists body agent_response,
             outcome = Response 200 body (Ok agent_response)
             /\ extract_text agent_response = Ok text).
Proof.
  destruct w as [ss es ap ar url us ck].
  st_run.
  all: try (do 3 eexists; split; [reflexivity|]; split; [reflexivity|];
            left; eexists; reflexivity).
  all: do 3 eexists; split; [reflexivity|]; split; [reflexivity|]; right.
  all: match goal with H : (_ =? 200) = true |- _ => apply Z.eqb_eq in H; subst end.
  all: eauto.
Qed.

(** The only key of the session mapping a chat turn writes is the id it
    was given. *)
Lemma generate_sse_response_dom outcome w :
  dom (sessions (world
    (generate_sse_response app_name user_id session_id new_message outcome
       (MkRun w [] [])).2))
  = {[session_id]} ∪ dom (sessions w).
Proof.
  destruct w as [ss es ap ar url us ck].
  st_run.
  all: rewrite ?dom_alter_L, ?dom_insert_L; try reflexivity.
  all: match goal with
       | Hin : ?m !! _ = Some _ |- _ =>
           apply (elem_of_dom_2 m) in Hin; symmetry;
           by apply subseteq_union_1_L, singleton_subseteq_l
       end.
Qed.

Lemma generate_sse_response_new_session outcome w :
  sessions w !! session_id = None ->
  exists s,
    sessions (world
      (generate_sse_response app_name user_id session_id new_message outcome
         (MkRun w [] [])).2) !! session_id = Some s
    /\ Session.id s = session_id
    /\ Session.appName s = app_name
    /\ Session.userId s = user_id.
Proof.
  destruct w as [ss es ap ar url us ck]. cbn [sessions]. intros Hnone.
  st_step. rewrite Hnone. st_run.
  all: rewrite ?lookup_alter_eq, lookup_insert_eq; cbn [fmap option_fmap option_map].
  all: eexists; split; [reflexivity|]; done.
Qed.
End ChatTurn.

(** No hexadecimal digit needs an escape. *)
Lemma escape_char_hex d : escape_char (hex_char d) = String (hex_char d) EmptyString.
Proof.
  unfold hex_char. destruct (Z.to_nat d) as [|n]; [reflexivity|].
  do 15 (destruct n as [|n]; [reflexivity|]). reflexivity.
Qed.

Lemma dumps_str_uuid u :
  dumps_str (str_uuid u) = String dquote (str_uuid u +:+ String dquote EmptyString).
Proof.
  unfold dumps_str. f_equal. f_equal.
  unfold str_uuid. cbn [hex_digits escape_chars].
  rewrite !escape_char_hex. reflexivity.
Qed.

(** C1: a chat turn keys the session mapping by the session id it was given
    and by nothing else, whatever that id is; given the placeholder
    [undefined] it stores a session under [undefined] with that very id,
    and no generated id enters the mapping. *)
Theorem run_sse_keys_session_by_supplied_id :
  (forall request outcome w,
     dom (sessions (world (run_sse request outcome w).2))
     = {[default "unknown" (sessionId request)]} ∪ dom (sessions w))
  /\ (let run := (run_sse (chat_request "undefined" (JObj [("text", JStr "hi")]))
                    (replies (JObj [("text", JStr "hello")])) world0).2 in
      is_unset "undefined" = true
      /\ dom (sessions (world run)) = {["undefined"]}
      /\ exists s, sessions (world run) !! "undefined" = Some s
                   /\ Session.id s = "undefined").
Proof.
  split.
  - intros request outcome w. apply generate_sse_response_dom.
  - cbv zeta. split; [vm_compute; reflexivity|]. split.
    + unfold run_sse. rewrite generate_sse_response_dom.
      cbn [world0 initial_world sessions]. by rewrite dom_empty_L, (right_id_L ∅ (∪)).
    + unfold run_sse.
      destruct (generate_sse_response_new_session "a" "alice" "undefined"
                  (JObj [("text", JStr "hi")]) (replies (JObj [("text", JStr "hello")]))
                  world0) as (s & Hs & Hid & _); [vm_compute; reflexivity|].
      exists s. split; [exact Hs | exact Hid].
Qed.

(** C7, as stated, fails: a reply whose [text] is the list [["x"]] is sent
    on with that list, not a string, in the text field of the frame. *)
Lemma run_sse_frame_text_not_string :
  let run := (run_sse (chat_request "s1" (JObj [("text", JStr "hi")]))
                (replies (JObj [("text", JArr [JStr "x"])])) world0).2 in
  yielded run = [dumps (frame 3 (JArr [JStr "x"]))]
  /\ ~ exists id s, yielded run = [dumps (frame id (JStr s))].
Proof.
  cbv zeta.
  assert (E : yielded (run_sse (chat_request "s1" (JObj [("text", JStr "hi")]))
                (replies (JObj [("text", JArr [JStr "x"])])) world0).2
              = [dumps (frame 3 (JArr [JStr "x"]))]) by (vm_compute; reflexivity).
  split; [exact E|].
  intros (id & s & H). rewrite E in H. clear E.
  apply (f_equal (fun l => match l with [x] => String.get 97 x | _ => None end)) in H.
  unfold frame, content_of in H. cbn [dumps map fst snd join] in H.
  rewrite !dumps_str_uuid in H.
  unfold str_uuid in H. cbn [hex_digits] in H.
  vm_compute in H.
  discriminate H.
Qed.

Lemma last_agent_response_non_string t r :
  last_agent_response t = Ok r ->
  (exists s, t = JStr s)
  \/ (r = t /\ match t with JArr _ | JObj _ => True | _ => False end).
Proof.
  destruct t as [| | | |s|l|l]; try discriminate; [by left; exists s| |].
  all: unfold last_agent_response; cbn [len rbind].
  all: destruct (100 <? length l)%nat; cbn [slice_to rbind add_str]; try discriminate.
  all: intros [= <-]; by right.
Qed.

(** C7, amended: for every chat request and every outcome of the outbound
    call the generator ends normally after exactly one frame, the JSON
    object [{id, author: model, content: {parts: [{text}]}}].  The text is
    the connection message or an unexpected-error text when the message
    cannot be read, the call raised or the body of a 200 reply does not
    decode; the agent-error text with the status when the status is not
    200; a parse-error text when the extraction or the state snapshot
    raises; and the value the extraction selected when the turn succeeds.
    It is a string in every case but one: a successful turn whose selected
    value is a list or an object, which is sent on as it is. *)
Theorem run_sse_always_emits_one_frame request outcome w :
  exists id text,
    (run_sse request outcome w).1 = Ok tt
    /\ yielded (run_sse request outcome w).2
       = [dumps (JObj [("id", JStr (str_uuid id)); ("author", JStr "model");
                       ("content", JObj [("parts", JArr [JObj [("text", text)]])])])]
    /\ text
       = match message_text (default (JObj []) (newMessage request)) with
         | Raise e => JStr (caught_text e)
         | Ok _ =>
             match outcome with
             | PostRaises e => JStr (caught_text e)
             | Response status _ decoded =>
                 if status =? 200 then
                   match decoded with
                   | Raise e => JStr (caught_text e)
                   | Ok agent_response =>
                       match extract_text agent_response with
                       | Raise e => JStr (parse_error_text e)
                       | Ok agent_text =>
                           match last_agent_response agent_text with
                           | Raise e => JStr (parse_error_text e)
                           | Ok _ => agent_text
                           end
                       end
                   end
                 else JStr ("Agent error: " +:+ pretty status)
             end
         end
    /\ ((exists s, text = JStr s)
        \/ (exists body agent_response,
              outcome = Response 200 body (Ok agent_response)
              /\ extract_text agent_response = Ok text
              /\ last_agent_response text = Ok text
              /\ truthy text = true
              /\ match text with JArr _ | JObj _ => True | _ => False end)).
Proof.
  destruct w as [ss es ap ar url us ck]. unfold caught_text, parse_error_text.
  st_run.
  all: eexists _, _; split; [reflexivity|]; split; [reflexivity|]; split; [reflexivity|].
  all: try (left; eexists; reflexivity).
  all: match goal with H : (_ =? 200) = true |- _ => apply Z.eqb_eq in H; subst end.
  all: match goal with
       | He : extract_text _ = Ok ?t, Hl : last_agent_response ?t = Ok _ |- _ =>
           pose proof (extract_text_truthy _ _ He) as Htruthy;
           destruct (last_agent_response_non_string _ _ Hl) as [[s ->]|[-> Hshape]];
           [left; by exists s | right; by eexists _, _]
       end.
Qed.

Lemma substring_prefix_length n s :
  (n <= String.length s)%nat -> String.length (String.substring 0 n s) = n.
Proof.
  revert s. induction n as [|n IH]; intros [|c s]; simpl; try lia; try done.
  intros H. f_equal. apply IH. lia.
Qed.

Lemma last_agent_response_str txt r :
  last_agent_response (JStr txt) = Ok r ->
  r = JStr (if (100 <? String.length txt)%nat
            then String.substring 0 100 txt +:+ "..." else txt).
Proof.
  unfold last_agent_response. cbn [len rbind].
  destruct (100 <? String.length txt)%nat; cbn [slice_to rbind add_str]; congruence.
Qed.

(** C4: after a successful agent turn (the message text was built, the
    agent answered 200 with a decoded body, the extraction and the
    truncation went through) the state of the session is exactly the
    mapping of lastActivity, the time stamp read last in the turn, of
    messageCount, the number of events of the session, two more than
    before, and of lastAgentResponse, the extracted text, whatever the
    state was before; a text longer than 100 characters is cut to its
    first 100 characters followed by three dots, a shorter one is kept as
    it is.  The frame of the turn carries the extracted text. *)
Theorem state_snapshot_replaced_after_agent_turn
    request w body agent_response text agent_text last_response :
  message_text (default (JObj []) (newMessage request)) = Ok text ->
  extract_text agent_response = Ok agent_text ->
  last_agent_response agent_text = Ok last_response ->
  let session_id := default "unknown" (sessionId request) in
  let run := (run_sse request (Response 200 body (Ok agent_response)) w).2 in
  let before :=
    match sessions w !! session_id with
    | Some stored => Session.events stored
    | None => []
    end in
  let reading :=
    match sessions w !! session_id with
    | Some _ => 2%nat
    | None => 3%nat
    end in
  exists s user_ev agent_ev,
    sessions (world run) !! session_id = Some s
    /\ Session.state s
       = JObj [("lastActivity", JStr (isoformat (clock w reading)));
               ("messageCount", JInt (Z.of_nat (length before + 2)));
               ("lastAgentResponse", last_response)]
    /\ Session.events s = before ++ [user_ev; agent_ev]
    /\ yielded run
       = [dumps (JObj [("id", JStr (str_uuid (uuid_stream w 3%nat)));
                       ("author", JStr "model");
                       ("content", JObj [("parts", JArr [JObj [("text", agent_text)]])])])]
    /\ (forall txt, agent_text = JStr txt ->
          last_response
          = JStr (if (100 <? String.length txt)%nat
                  then String.substring 0 100 txt +:+ "..." else txt)
          /\ ((100 < String.length txt)%nat ->
              String.length (String.substring 0 100 txt) = 100%nat)).
Proof.
  intros Hm He Hl. cbv zeta.
  assert (Htxt : forall txt, agent_text = JStr txt ->
          last_response
          = JStr (if (100 <? String.length txt)%nat
                  then String.substring 0 100 txt +:+ "..." else txt)
          /\ ((100 < String.length txt)%nat ->
              String.length (String.substring 0 100 txt) = 100%nat)).
  { intros txt ->. split; [by apply last_agent_response_str|].
    intros. apply substring_prefix_length. lia. }
  destruct w as [ss es ap ar url us ck]. cbn [sessions clock uuid_stream].
  st_step. destruct (ss !! default "unknown" (sessionId request)) eqn:Hs.
  all: st_step; rewrite Hm; st_step; change (200 =? 200) with true; st_step.
  all: rewrite He; st_step; rewrite Hl; st_step.
  all: rewrite !lookup_alter_eq, ?lookup_insert_eq, ?Hs; cbn [fmap option_fmap option_map].
  all: eexists _, _, _; split; [reflexivity|].
  all: cbn [Session.events Session.state Session.with_state Session.with_events
            append_event Session.init].
  all: rewrite <- ?app_assoc; cbn [app].
  all: split; [|split; [reflexivity|split; [reflexivity | exact Htxt]]].
  all: unfold state_snapshot; rewrite ?length_app; cbn [length]; repeat f_equal; lia.
Qed.

Lemma state_snapshot_replaced_after_agent_turn_witness :
  let long := String.concat "" (replicate 125 "ab") in
  let run := (run_sse (chat_request "s1" (JObj [("text", JStr "hi")]))
                (replies (JObj [("text", JStr long)])) world0).2 in
  exists s user_ev agent_ev,
    sessions (world run) !! "s1" = Some s
    /\ Session.state s
       = JObj [("lastActivity", JStr (isoformat noon));
               ("messageCount", JInt 2);
               ("lastAgentResponse", JStr (String.substring 0 100 long +:+ "..."))]
    /\ Session.events s = [user_ev; agent_ev]
    /\ yielded run
       = [dumps (JObj [("id", JStr (str_uuid 3));
                       ("author", JStr "model");
                       ("content", JObj [("parts", JArr [JObj [("text", JStr long)]])])])].
Proof.
  cbv zeta.
  destruct (state_snapshot_replaced_after_agent_turn
              (chat_request "s1" (JObj [("text", JStr "hi")])) world0 ""
              (JObj [("text", JStr (String.concat "" (replicate 125 "ab")))])
              (JStr "hi") (JStr (String.concat "" (replicate 125 "ab")))
              (JStr (String.substring 0 100 (String.concat "" (replicate 125 "ab")) +:+ "...")))
    as (s & u & a & H1 & H2 & H3 & H4 & _).
  - vm_compute; reflexivity.
  - vm_compute; reflexivity.
  - vm_compute; reflexivity.
  - exists s, u, a. repeat split; assumption.
Defined.

Lemma message_text_shape items :
  message_shape items = true ->
  message_text (JObj items) = Ok (default (JStr "Hello") (supplied_text items)).
Proof.
  unfold message_shape, supplied_text, message_text. cbn [get rbind].
  destruct (dict_lookup items "parts") as [v|]; [|done].
  destruct v as [| | | | |[|[| | | | | |part0] ?]|]; cbn [truthy negb].
  all: try discriminate.
  all: intros Hv; try (apply negb_true_iff in Hv; rewrite Hv); done.
Qed.

Lemma generate_sse_response_posted app_name user_id session_id new_message outcome w text :
  message_text new_message = Ok text ->
  exists id message_id,
    posted (generate_sse_response app_name user_id session_id new_message outcome
              (MkRun w [] [])).2
    = [(REMOTE_AGENT_URL w,
        agent_request id message_id session_id app_name user_id text)].
Proof.
  intros Hm. destruct w as [ss es ap ar url us ck].
  st_step. destruct (ss !! session_id); st_step; rewrite Hm; st_run.
  all: by eexists _, _.
Qed.

(** C8, amended: the text part of the envelope that is posted is the text
    the caller supplied whenever the key is present, an empty text
    included, and the literal Hello only when the key is absent. *)
Theorem outbound_text_is_supplied_text_or_hello request outcome w items :
  default (JObj []) (newMessage request) = JObj items ->
  message_shape items = true ->
  exists id message_id,
    posted (run_sse request outcome w).2
    = [(REMOTE_AGENT_URL w,
        agent_request id message_id
          (default "unknown" (sessionId request))
          (default "unknown" (appName request))
          (default "unknown" (userId request))
          (default (JStr "Hello") (supplied_text items)))].
Proof.
  intros Hnm Hshape. unfold run_sse. rewrite Hnm.
  apply generate_sse_response_posted. by apply message_text_shape.
Qed.

Lemma outbound_text_is_supplied_text_or_hello_witness :
  exists id message_id,
    posted (run_sse (chat_request "s1" (JObj [("parts", JArr [JObj [("kind", JStr "text")]])]))
              (PostRaises (Exn RequestError "timed out")) world0).2
    = [("http://localhost:8080",
        agent_request id message_id "s1" "a" "alice" (JStr "Hello"))].
Proof.
  apply (outbound_text_is_supplied_text_or_hello
           (chat_request "s1" (JObj [("parts", JArr [JObj [("kind", JStr "text")]])]))
           (PostRaises (Exn RequestError "timed out")) world0
           [("parts", JArr [JObj [("kind", JStr "text")]])]).
  - reflexivity.
  - reflexivity.
Defined.

(** C8, as stated, fails: an empty text that is present is forwarded as it
    is, at the top level and under [parts] alike. *)
Lemma outbound_text_empty_is_forwarded :
  posted (run_sse (chat_request "s1" (JObj [("text", JStr "")]))
            (replies (JObj [("text", JStr "hello")])) world0).2
  = [("http://localhost:8080", agent_request 1 2 "s1" "a" "alice" (JStr ""))]
  /\ message_text (JObj [("parts", JArr [JObj [("text", JStr "")]])]) = Ok (JStr "")
  /\ JStr "" <> JStr "Hello".
Proof.
  split; [vm_compute; reflexivity|]. split; [reflexivity | discriminate].
Qed.

(** ** Session fetch and delete *)

Lemma length_str_uuid u : String.length (str_uuid u) = 36%nat.
Proof. reflexivity. Qed.

Lemma str_uuid_is_set u : is_unset (str_uuid u) = false.
Proof.
  unfold is_unset. apply bool_decide_eq_false. intros Hin.
  pose proof (length_str_uuid u) as Hlen.
  repeat (apply elem_of_cons in Hin as [Heq|Hin]; [rewrite Heq in Hlen; discriminate Hlen|]).
  by apply elem_of_nil in Hin.
Qed.

(** X3: the session fetch, unlike the chat turn, replaces a placeholder id
    by a generated one, which is never a placeholder itself: it stores a
    new session of the requester under that id and answers with it. *)
Lemma get_session_unset_synthesizes app_name user_id session_id w :
  is_unset session_id = true ->
  let new_session_id := str_uuid (uuid_stream w 0%nat) in
  let session := Session.init new_session_id app_name user_id (clock w 0%nat) None None in
  (get_session app_name user_id session_id w).1 = Ok (session_view session)
  /\ sessions (get_session app_name user_id session_id w).2
     = <[new_session_id := session]> (sessions w)
  /\ is_unset new_session_id = false.
Proof.
  intros Hunset. cbv zeta. destruct w as [ss es ap ar url us ck].
  unfold get_session. rewrite Hunset. st_step.
  split; [reflexivity|]. split; [reflexivity|]. apply str_uuid_is_set.
Qed.

(** C5, amended: for every session id that is not a placeholder, the fetch
    answers 404 when the id is absent, 403 when the stored user or app
    differs from the requested one, and the full session when both match;
    the state is left as it was in all three cases. *)
Theorem get_session_checks_owner app_name user_id session_id w :
  is_unset session_id = false ->
  (sessions w !! session_id = None ->
   get_session app_name user_id session_id w
   = (Raise (MkHTTPException 404 "Session not found"), w))
  /\ (forall s, sessions w !! session_id = Some s ->
       Session.userId s <> user_id \/ Session.appName s <> app_name ->
       get_session app_name user_id session_id w
       = (Raise (MkHTTPException 403 "Access denied"), w))
  /\ (forall s, sessions w !! session_id = Some s ->
       Session.userId s = user_id -> Session.appName s = app_name ->
       get_session app_name user_id session_id w = (Ok (session_view s), w)).
Proof.
  intros Hset. unfold get_session. rewrite Hset.
  destruct w as [ss es ap ar url us ck]. cbn [sessions].
  repeat split.
  - intros Hs. st_step. by rewrite Hs.
  - intros s Hs Hne. st_step. rewrite Hs.
    destruct Hne as [Hne|Hne].
    + by rewrite (bool_decide_eq_false_2 _ Hne).
    + rewrite (bool_decide_eq_false_2 _ Hne). by rewrite orb_true_r.
  - intros s Hs Hu Ha. st_step. rewrite Hs.
    by rewrite (bool_decide_eq_true_2 _ Hu), (bool_decide_eq_true_2 _ Ha).
Qed.

Lemma get_session_checks_owner_witness :
  is_unset (str_uuid 0) = false
  /\ get_session "a" "mallory" (str_uuid 0) world1
     = (Raise (MkHTTPException 403 "Access denied"), world1).
Proof.
  split; [apply str_uuid_is_set|].
  destruct (get_session_checks_owner "a" "mallory" (str_uuid 0) world1) as (_ & H403 & _).
  - apply str_uuid_is_set.
  - apply (H403 (Session.init (str_uuid 0) "a" "alice" noon None None)).
    + vm_compute; reflexivity.
    + left. vm_compute. discriminate.
Defined.

(** C5, as stated, fails: the chat turn has stored a session of alice under
    the placeholder [undefined]; a fetch of that id by mallory is not
    refused but answered with a session made for mallory. *)
Lemma get_session_placeholder_not_forbidden :
  sessions world_undefined !! "undefined"
  = Some (Session.Make "undefined" "a" "alice" noon
            [user_event 0 noon (JObj [("text", JStr "hi")]) "undefined";
             agent_event 4 noon (content_of (JStr "hello")) "undefined"
               (JObj [("text", JStr "hello")])]
            (state_snapshot noon 2 (JStr "hello")))
  /\ (get_session "a" "mallory" "undefined" world_undefined).1
     = Ok (session_view (Session.init (str_uuid 5) "a" "mallory" noon None None))
  /\ (get_session "a" "mallory" "undefined" world_undefined).1
     <> Raise (MkHTTPException 403 "Access denied").
Proof.
  split; [vm_compute; reflexivity|].
  assert (E : (get_session "a" "mallory" "undefined" world_undefined).1
              = Ok (session_view (Session.init (str_uuid 5) "a" "mallory" noon None None)))
    by (vm_compute; reflexivity).
  split; [exact E|]. rewrite E. discriminate.
Qed.

(** C6, amended: a delete by the owner succeeds and removes the id from the
    session mapping, after which a fetch of that id, unless the id is a
    placeholder, answers 404; a delete that answers 404 or 403 leaves the
    state as it was. *)
Theorem delete_session_removes app_name user_id session_id w :
  (forall s, sessions w !! session_id = Some s ->
     Session.userId s = user_id -> Session.appName s = app_name ->
     exists w',
       delete_session app_name user_id session_id w
       = (Ok (JObj [("status", JStr "deleted")]), w')
       /\ sessions w' = delete session_id (sessions w)
       /\ sessions w' !! session_id = None
       /\ (is_unset session_id = false ->
           forall a u, get_session a u session_id w'
                       = (Raise (MkHTTPException 404 "Session not found"), w')))
  /\ (sessions w !! session_id = None ->
      delete_session app_name user_id session_id w
      = (Raise (MkHTTPException 404 "Session not found"), w))
  /\ (forall s, sessions w !! session_id = Some s ->
       Session.userId s <> user_id \/ Session.appName s <> app_name ->
       delete_session app_name user_id session_id w
       = (Raise (MkHTTPException 403 "Access denied"), w)).
Proof.
  destruct w as [ss es ap ar url us ck]. cbn [sessions].
  repeat split.
  - intros s Hs Hu Ha. eexists. split.
    { handler_step. rewrite Hs.
      rewrite (bool_decide_eq_true_2 _ Hu), (bool_decide_eq_true_2 _ Ha).
      cbn [negb orb]. reflexivity. }
    cbn [sessions]. split; [reflexivity|]. split; [apply lookup_delete_eq|].
    intros Hset a u. unfold get_session. rewrite Hset. st_step.
    by rewrite lookup_delete_eq.
  - intros Hs. handler_step. by rewrite Hs.
  - intros s Hs Hne. handler_step. rewrite Hs.
    destruct Hne as [Hne|Hne].
    + by rewrite (bool_decide_eq_false_2 _ Hne).
    + rewrite (bool_decide_eq_false_2 _ Hne). by rewrite orb_true_r.
Qed.

Lemma delete_session_removes_witness :
  exists w',
    delete_session "a" "alice" (str_uuid 0) world1
    = (Ok (JObj [("status", JStr "deleted")]), w')
    /\ sessions w' !! str_uuid 0 = None
    /\ get_session "a" "alice" (str_uuid 0) w'
       = (Raise (MkHTTPException 404 "Session not found"), w').
Proof.
  destruct (delete_session_removes "a" "alice" (str_uuid 0) world1) as (Hok & _ & _).
  destruct (Hok (Session.init (str_uuid 0) "a" "alice" noon None None))
    as (w' & Hdel & _ & Hnone & Hget).
  - vm_compute; reflexivity.
  - reflexivity.
  - reflexivity.
  - exists w'. split; [exact Hdel|]. split; [exact Hnone|].
    apply Hget. apply str_uuid_is_set.
Defined.

(** C6, as stated, fails: after the session stored under the placeholder
    [undefined] is deleted, a fetch of that id answers with a new session,
    not with 404. *)
Lemma delete_placeholder_then_get_is_not_404 :
  let w' := (delete_session "a" "alice" "undefined" world_undefined).2 in
  (delete_session "a" "alice" "undefined" world_undefined).1
  = Ok (JObj [("status", JStr "deleted")])
  /\ sessions w' !! "undefined" = None
  /\ (get_session "a" "alice" "undefined" w').1
     = Ok (session_view (Session.init (str_uuid 5) "a" "alice" noon None None))
  /\ (get_session "a" "alice" "undefined" w').1
     <> Raise (MkHTTPException 404 "Session not found").
Proof.
  cbv zeta.
  assert (E : (get_session "a" "alice" "undefined"
                 (delete_session "a" "alice" "undefined" world_undefined).2).1
              = Ok (session_view (Session.init (str_uuid 5) "a" "alice" noon None None)))
    by (vm_compute; reflexivity).
  split; [vm_compute; reflexivity|]. split; [vm_compute; reflexivity|].
  split; [exact E|]. rewrite E. discriminate.
Qed.

(** ** Evaluation sets *)

(** C9: adding a session to an evaluation set answers [added] and changes
    nothing, for every app name, set id and body: the whole state is the
    one before, so no case is appended to any set. *)
Theorem add_session_to_eval_is_noop app_name eval_set_id request w :
  add_session_to_eval app_name eval_set_id request w
  = (Ok (JObj [("status", JStr "added")]), w)
  /\ (forall a i, list_eval_cases a i (add_session_to_eval app_name eval_set_id request w).2
                  = list_eval_cases a i w)
  /\ eval_sets (add_session_to_eval app_name eval_set_id request w).2 = eval_sets w
  /\ sessions (add_session_to_eval app_name eval_set_id request w).2 = sessions w
  /\ artifacts (add_session_to_eval app_name eval_set_id request w).2 = artifacts w
  /\ apps (add_session_to_eval app_name eval_set_id request w).2 = apps w.
Proof. repeat split. Qed.

(** C10: the list of evaluation sets does not depend on the app name: any
    two app names get the same answer, the summaries of all the sets of
    the one process-wide mapping in insertion order. *)
Theorem get_eval_sets_ignores_app_name app_name other_app w :
  get_eval_sets app_name w = get_eval_sets other_app w
  /\ get_eval_sets app_name w
     = (Ok (JObj [("evalSets",
                   JArr (map (fun kv => eval_set_summary kv.2) (eval_sets w)))]), w).
Proof. split; reflexivity. Qed.

Example eval_set_of_one_app_is_listed_for_another :
  (get_eval_sets "demo-agent" (create_eval_set "sample-app" "regression" world0).2).1
  = Ok (JObj [("evalSets",
               JArr [JObj [("id", JStr "regression"); ("name", JStr "regression");
                           ("caseCount", JInt 0)]])]).
Proof. vm_compute; reflexivity. Qed.

(** * The other handlers *)

Lemma get_session_unset_synthesizes_witness :
  (get_session "a" "alice" "null" world0).1
  = Ok (session_view (Session.init (str_uuid 0) "a" "alice" noon None None))
  /\ sessions (get_session "a" "alice" "null" world0).2
     = <[str_uuid 0 := Session.init (str_uuid 0) "a" "alice" noon None None]>
         (sessions world0)
  /\ is_unset (str_uuid 0) = false.
Proof. apply (get_session_unset_synthesizes "a" "alice" "null" world0). reflexivity. Defined.

(** ** Sessions *)

(** X1: a session that was just created is fetched back by its owner under
    the returned id, with no events and an empty state; any other user or
    app is refused with 403. *)
Theorem create_session_then_get app_name user_id w :
  let session_id := str_uuid (uuid_stream w 0%nat) in
  let created := Session.init session_id app_name user_id (clock w 0%nat) None None in
  let w' := (create_session app_name user_id w).2 in
  (create_session app_name user_id w).1
  = Ok (JObj [("sessionId", JStr session_id); ("status", JStr "created")])
  /\ get_session app_name user_id session_id w' = (Ok (session_view created), w')
  /\ session_view created
     = JObj [("id", JStr session_id); ("appName", JStr app_name); ("userId", JStr user_id);
             ("createdAt", JStr (isoformat (clock w 0%nat)));
             ("events", JArr []); ("state", JObj [])]
  /\ (forall other_app other_user,
        other_user <> user_id \/ other_app <> app_name ->
        get_session other_app other_user session_id w'
        = (Raise (MkHTTPException 403 "Access denied"), w')).
Proof.
  cbv zeta. destruct w as [ss es ap ar url us ck].
  split; [reflexivity|].
  pose proof (str_uuid_is_set (us 0%nat)) as Hset.
  split; [|split; [reflexivity|]].
  - unfold get_session. cbn [uuid_stream]. rewrite Hset. handler_step.
    rewrite lookup_insert_eq. cbn [Session.init Session.userId Session.appName].
    by rewrite !bool_decide_eq_true_2.
  - intros a u Hne. unfold get_session. cbn [uuid_stream]. rewrite Hset. handler_step.
    rewrite lookup_insert_eq. cbn [Session.init Session.userId Session.appName].
    destruct Hne as [Hne|Hne].
    + by rewrite (bool_decide_eq_false_2 _ (not_eq_sym Hne)).
    + rewrite (bool_decide_eq_false_2 _ (not_eq_sym Hne)). by rewrite orb_true_r.
Qed.

Lemma create_session_then_get_witness :
  get_session "b" "mallory" (str_uuid 0) (create_session "a" "alice" world0).2
  = (Raise (MkHTTPException 403 "Access denied"), (create_session "a" "alice" world0).2).
Proof.
  destruct (create_session_then_get "a" "alice" world0) as (_ & _ & _ & H).
  apply (H "b" "mallory"). left. discriminate.
Defined.

(** X2: an imported session is stored under a generated id, with the
    events of the body (none when the body has none), and is fetched back
    by its owner; no other session is touched. *)
Theorem import_session_then_get app_name user_id events w :
  let session_id := str_uuid (uuid_stream w 0%nat) in
  let w' := (import_session app_name user_id events w).2 in
  (import_session app_name user_id events w).1
  = Ok (JObj [("sessionId", JStr session_id); ("status", JStr "imported")])
  /\ get_session app_name user_id session_id w'
     = (Ok (JObj [("id", JStr session_id); ("appName", JStr app_name);
                  ("userId", JStr user_id);
                  ("createdAt", JStr (isoformat (clock w 0%nat)));
                  ("events", JArr (default [] events)); ("state", JObj [])]), w')
  /\ delete session_id (sessions w') = delete session_id (sessions w).
Proof.
  cbv zeta. destruct w as [ss es ap ar url us ck].
  split; [reflexivity|].
  pose proof (str_uuid_is_set (us 0%nat)) as Hset.
  split.
  - unfold get_session. cbn [uuid_stream]. rewrite Hset. more_step.
    rewrite lookup_insert_eq. cbn [Session.init Session.userId Session.appName].
    rewrite !bool_decide_eq_true_2 by reflexivity. cbn [negb orb].
    unfold session_view. cbn [Session.id Session.appName Session.userId Session.createdAt
      Session.events Session.state].
    by destruct events as [[|e es']|].
  - more_step. by rewrite delete_insert_eq.
Qed.

(** X4: the listing holds the summary of a session exactly when that
    session is stored with the requested user and app; it changes nothing.
    (Membership only: the order of the list is not modelled.) *)
Theorem list_sessions_lists_own_sessions app_name user_id w :
  exists summaries,
    list_sessions app_name user_id w = (Ok (JObj [("sessions", JArr summaries)]), w)
    /\ forall summary,
         summary ∈ summaries
         <-> exists k s, sessions w !! k = Some s
                         /\ Session.userId s = user_id
                         /\ Session.appName s = app_name
                         /\ summary = session_summary s.
Proof.
  destruct w as [ss es ap ar url us ck]. eexists. split; [reflexivity|].
  cbn [sessions]. intros summary. rewrite list_elem_of_fmap. split.
  - intros (s & -> & Hin). apply list_elem_of_filter in Hin as [[Hu Ha] Hin].
    apply list_elem_of_fmap in Hin as ([k s'] & -> & Hin).
    apply elem_of_map_to_list in Hin. by exists k, s'.
  - intros (k & s & Hs & Hu & Ha & ->). exists s. split; [done|].
    apply list_elem_of_filter. split; [done|].
    apply list_elem_of_fmap. exists (k, s). split; [done|]. by apply elem_of_map_to_list.
Qed.

(** ** Reachable states *)

(** What one request can do to the registries other than the sessions. *)
Lemma step_registries w w' :
  step w w' ->
  apps w' = apps w
  /\ artifacts w' = artifacts w
  /\ (eval_sets w' = eval_sets w
      \/ exists eval_set_id,
           eval_sets w'
           = dict_set (eval_sets w) eval_set_id (EvalSet.init eval_set_id eval_set_id None)).
Proof.
  intros Hstep. destruct Hstep; destruct w as [ss es ap ar url us ck].
  all: more_run.
  all: cbn [apps artifacts eval_sets snd]; eauto.
Qed.

Lemma keys_ok_insert m k s : Session.id s = k -> keys_ok m -> keys_ok (<[k:=s]> m).
Proof.
  intros Hid Hm j s'. destruct (decide (k = j)) as [<-|Hne].
  - rewrite lookup_insert_eq. by intros [= <-].
  - rewrite lookup_insert_ne by done. apply Hm.
Qed.

Lemma keys_ok_alter m k f :
  (forall s, Session.id (f s) = Session.id s) -> keys_ok m -> keys_ok (alter f k m).
Proof.
  intros Hf Hm j s'. destruct (decide (k = j)) as [<-|Hne].
  - rewrite lookup_alter_eq. destruct (m !! k) as [s|] eqn:Hs; [|done].
    intros [= <-]. rewrite Hf. by apply Hm.
  - rewrite lookup_alter_ne by done. apply Hm.
Qed.

Lemma keys_ok_delete m k : keys_ok m -> keys_ok (delete k m).
Proof.
  intros Hm j s'. destruct (decide (k = j)) as [<-|Hne].
  - by rewrite lookup_delete_eq.
  - rewrite lookup_delete_ne by done. apply Hm.
Qed.

Lemma step_keys_ok w w' : step w w' -> keys_ok (sessions w) -> keys_ok (sessions w').
Proof.
  intros Hstep Hok. destruct Hstep; destruct w as [ss es ap ar url us ck].
  all: cbn [sessions] in Hok.
  all: more_run.
  all: cbn [sessions snd].
  all: repeat first
         [ exact Hok
         | apply keys_ok_delete
         | apply keys_ok_insert; [reflexivity|]
         | apply keys_ok_alter; [reflexivity|] ].
Qed.

(** X5: in every state the handlers can reach, a session is stored under
    its own id. *)
Theorem reachable_session_id_is_key w k s :
  reachable w -> sessions w !! k = Some s -> Session.id s = k.
Proof.
  intros Hreach. revert k s. change (keys_ok (sessions w)).
  induction Hreach as [uuids times|w w' _ IH Hstep].
  - intros k s. cbn. by rewrite lookup_empty.
  - by apply (step_keys_ok w).
Qed.

Lemma reachable_world1 : reachable world1.
Proof. apply (reachable_step world0); [apply reachable_start | apply step_create_session]. Qed.

Lemma reachable_session_id_is_key_witness :
  Session.id (Session.init (str_uuid 0) "a" "alice" noon None None) = str_uuid 0.
Proof.
  apply (reachable_session_id_is_key world1 (str_uuid 0)
           (Session.init (str_uuid 0) "a" "alice" noon None None)).
  - exact reachable_world1.
  - vm_compute; reflexivity.
Defined.

(** ** The chat turn, continued *)

(** X6: a chat turn on a stored session keeps its id, app, user and
    creation time, whoever sends the request (the owner is not checked),
    and only appends to its events: the user message, then at most one
    more event. *)
Theorem run_sse_appends_to_existing request outcome w s :
  let session_id := default "unknown" (sessionId request) in
  let new_message := default (JObj []) (newMessage request) in
  sessions w !! session_id = Some s ->
  exists s' id t rest,
    sessions (world (run_sse request outcome w).2) !! session_id = Some s'
    /\ Session.id s' = Session.id s
    /\ Session.appName s' = Session.appName s
    /\ Session.userId s' = Session.userId s
    /\ Session.createdAt s' = Session.createdAt s
    /\ Session.events s'
       = Session.events s ++ user_event id t new_message session_id :: rest
    /\ (length rest <= 1)%nat.
Proof.
  cbv zeta. destruct w as [ss es ap ar url us ck]. cbn [sessions]. intros Hs.
  st_step. rewrite Hs. st_run.
  all: lookup_session.
  all: eexists _, _, _, _; split; [reflexivity|].
  all: cbn [Session.id Session.appName Session.userId Session.createdAt Session.events
            Session.with_state Session.with_events append_event].
  all: repeat split; rewrite <- ?app_assoc; cbn [app]; try reflexivity.
  all: cbn [length]; lia.
Qed.

Lemma run_sse_appends_to_existing_witness :
  exists s' id t rest,
    sessions (world (run_sse (MkChatRequest (Some "b") (Some "mallory") (Some (str_uuid 0)) None)
                       (replies (JObj [("text", JStr "hello")])) world1).2) !! str_uuid 0
    = Some s'
    /\ Session.id s' = str_uuid 0
    /\ Session.appName s' = "a"
    /\ Session.userId s' = "alice"
    /\ Session.createdAt s' = noon
    /\ Session.events s' = [] ++ user_event id t (JObj []) (str_uuid 0) :: rest
    /\ (length rest <= 1)%nat.
Proof.
  apply (run_sse_appends_to_existing
           (MkChatRequest (Some "b") (Some "mallory") (Some (str_uuid 0)) None)
           (replies (JObj [("text", JStr "hello")])) world1
           (Session.init (str_uuid 0) "a" "alice" noon None None)).
  vm_compute; reflexivity.
Defined.

(** X7: a chat turn leaves every session but the one of its session id, the
    evaluation sets, the apps, the artifacts and the agent url as they
    were. *)
Theorem run_sse_touches_one_session request outcome w :
  let w' := world (run_sse request outcome w).2 in
  delete (default "unknown" (sessionId request)) (sessions w')
  = delete (default "unknown" (sessionId request)) (sessions w)
  /\ eval_sets w' = eval_sets w
  /\ apps w' = apps w
  /\ artifacts w' = artifacts w
  /\ REMOTE_AGENT_URL w' = REMOTE_AGENT_URL w.
Proof.
  cbv zeta. destruct w as [ss es ap ar url us ck].
  st_run.
  all: cbn [sessions eval_sets apps artifacts REMOTE_AGENT_URL].
  all: rewrite ?delete_alter_eq, ?delete_insert_eq; done.
Qed.

(** X8: a chat turn sends exactly one envelope, to the configured agent url
    and with the text of the message, or none at all when the text of the
    message cannot be read. *)
Theorem run_sse_posts_once request outcome w :
  match message_text (default (JObj []) (newMessage request)) with
  | Ok text =>
      exists id message_id,
        posted (run_sse request outcome w).2
        = [(REMOTE_AGENT_URL w,
            agent_request id message_id
              (default "unknown" (sessionId request))
              (default "unknown" (appName request))
              (default "unknown" (userId request)) text)]
  | Raise _ => posted (run_sse request outcome w).2 = []
  end.
Proof.
  destruct (message_text (default (JObj []) (newMessage request))) as [text|e] eqn:Hm.
  - by apply generate_sse_response_posted.
  - destruct w as [ss es ap ar url us ck]. st_step.
    destruct (ss !! default "unknown" (sessionId request)); st_step; rewrite Hm; st_run.
    all: reflexivity.
Qed.

(** X9: when the outbound call fails (it raised, the status is not 200, or
    the body of a 200 reply cannot be decoded) the frame carries the text of
    that failure and the session holds the user message as its one new
    event; its state is the one before. *)
Theorem run_sse_failed_call_logs_user_message request outcome w text failure :
  message_text (default (JObj []) (newMessage request)) = Ok text ->
  failure_text outcome = Some failure ->
  let run := (run_sse request outcome w).2 in
  let session_id := default "unknown" (sessionId request) in
  exists frame_id event_id t,
    yielded run = [dumps (frame frame_id (JStr failure))]
    /\ sessions (world run) !! session_id
       = Some (append_event
                 (user_event event_id t (default (JObj []) (newMessage request)) session_id)
                 (session_before request w)).
Proof.
  intros Hm Hf. cbv zeta. unfold session_before.
  destruct w as [ss es ap ar url us ck]. cbn [sessions clock].
  st_step.
  destruct (ss !! default "unknown" (sessionId request)) eqn:Hs; st_step; rewrite Hm; st_step.
  all: destruct outcome as [st body [resp|e]|e]; cbn [failure_text] in Hf; st_step.
  all: try (destruct (st =? 200) eqn:Hst; st_step); try discriminate Hf.
  all: try (destruct (is_request_error e) eqn:He; st_step).
  all: injection Hf as <-.
  all: lookup_session; cbn [default].
  all: by eexists _, _, _.
Qed.

Lemma run_sse_failed_call_logs_user_message_witness :
  exists frame_id event_id t,
    yielded (run_sse (chat_request "s1" (JObj [("text", JStr "hi")]))
               (Response 503 "busy" (Raise (Exn OtherException "not json"))) world0).2
    = [dumps (frame frame_id (JStr "Agent error: 503"))]
    /\ sessions (world (run_sse (chat_request "s1" (JObj [("text", JStr "hi")]))
               (Response 503 "busy" (Raise (Exn OtherException "not json"))) world0).2) !! "s1"
       = Some (append_event (user_event event_id t (JObj [("text", JStr "hi")]) "s1")
                 (Session.init "s1" "a" "alice" noon None None)).
Proof.
  apply (run_sse_failed_call_logs_user_message
           (chat_request "s1" (JObj [("text", JStr "hi")]))
           (Response 503 "busy" (Raise (Exn OtherException "not json"))) world0
           (JStr "hi") "Agent error: 503"); reflexivity.
Defined.

(** X10: when the text was extracted but the state snapshot raises (the
    text has no length, or is a list of more than 100 items), the frame is
    a parse error, yet the agent event is already in the log and the state
    is the one before. *)
Theorem run_sse_snapshot_failure_keeps_agent_event
    request w body agent_response text agent_text e :
  message_text (default (JObj []) (newMessage request)) = Ok text ->
  extract_text agent_response = Ok agent_text ->
  last_agent_response agent_text = Raise e ->
  let run := (run_sse request (Response 200 body (Ok agent_response)) w).2 in
  let session_id := default "unknown" (sessionId request) in
  exists frame_id s' user_ev agent_ev,
    yielded run
    = [dumps (frame frame_id (JStr ("Error parsing response: " +:+ exn_str e)))]
    /\ sessions (world run) !! session_id = Some s'
    /\ Session.events s' = Session.events (session_before request w) ++ [user_ev; agent_ev]
    /\ getitem agent_ev "type" = Ok (JStr "agent_response")
    /\ getitem agent_ev "content" = Ok (content_of agent_text)
    /\ Session.state s' = Session.state (session_before request w).
Proof.
  intros Hm He Hl. cbv zeta. unfold session_before.
  destruct w as [ss es ap ar url us ck]. cbn [sessions clock].
  st_step.
  destruct (ss !! default "unknown" (sessionId request)) eqn:Hs; st_step; rewrite Hm; st_step.
  all: change (200 =? 200) with true; st_step; rewrite He; st_step; rewrite Hl; st_step.
  all: lookup_session; cbn [default].
  all: eexists _, _, _, _; split; [reflexivity|]; split; [reflexivity|].
  all: cbn [Session.events Session.state Session.with_events append_event Session.init].
  all: rewrite <- ?app_assoc; cbn [app]; repeat split; reflexivity.
Qed.

Lemma run_sse_snapshot_failure_keeps_agent_event_witness :
  exists frame_id s' user_ev agent_ev,
    yielded (run_sse (chat_request "s1" (JObj [("text", JStr "hi")]))
               (replies (JObj [("text", JInt 5)])) world0).2
    = [dumps (frame frame_id
                (JStr ("Error parsing response: " +:+ "object of type 'int' has no len()")))]
    /\ sessions (world (run_sse (chat_request "s1" (JObj [("text", JStr "hi")]))
               (replies (JObj [("text", JInt 5)])) world0).2) !! "s1" = Some s'
    /\ Session.events s' = [] ++ [user_ev; agent_ev]
    /\ getitem agent_ev "type" = Ok (JStr "agent_response")
    /\ getitem agent_ev "content" = Ok (content_of (JInt 5))
    /\ Session.state s' = JObj [].
Proof.
  apply (run_sse_snapshot_failure_keeps_agent_event
           (chat_request "s1" (JObj [("text", JStr "hi")])) world0 ""
           (JObj [("text", JInt 5)]) (JStr "hi") (JInt 5)
           (Exn TypeError "object of type 'int' has no len()")); reflexivity.
Defined.

(** ** The trace of a session *)

Lemma event_ok_user_event id t nm sid : event_ok (user_event id t nm sid) = true.
Proof. reflexivity. Qed.

Lemma event_ok_agent_event id t c sid raw : event_ok (agent_event id t c sid raw) = true.
Proof. reflexivity. Qed.

Lemma forallb_snoc {A} (f : A -> bool) l x :
  forallb f (l ++ [x]) = forallb f l && f x.
Proof. rewrite forallb_app. simpl. by rewrite andb_true_r. Qed.

(** X11: a chat turn keeps every event of every session readable by the
    trace: the events it appends have the five keys and a role that is
    user or assistant. *)
Theorem run_sse_keeps_events_well_formed request outcome w :
  events_ok w -> events_ok (world (run_sse request outcome w).2).
Proof.
  intros Hok.
  assert (Hngen : forall m : gmap string Session.t,
            (forall k s, m !! k = Some s -> forallb event_ok (Session.events s) = true) ->
            forall ev sid, event_ok ev = true ->
            forall k s, alter (append_event ev) sid m !! k = Some s ->
                        forallb event_ok (Session.events s) = true).
  { intros m Hm ev sid Hev k s. destruct (decide (sid = k)) as [<-|Hne].
    - rewrite lookup_alter_eq. destruct (m !! sid) as [s0|] eqn:Hs; [|done].
      intros [= <-]. cbn. by rewrite forallb_snoc, Hev, (Hm _ _ Hs).
    - rewrite lookup_alter_ne by done. apply Hm. }
  assert (Hstate : forall m : gmap string Session.t,
            (forall k s, m !! k = Some s -> forallb event_ok (Session.events s) = true) ->
            forall st sid k s, alter (Session.with_state st) sid m !! k = Some s ->
                        forallb event_ok (Session.events s) = true).
  { intros m Hm st sid k s. destruct (decide (sid = k)) as [<-|Hne].
    - rewrite lookup_alter_eq. destruct (m !! sid) as [s0|] eqn:Hs; [|done].
      intros [= <-]. cbn. by apply (Hm _ _ Hs).
    - rewrite lookup_alter_ne by done. apply Hm. }
  assert (Hins : forall m : gmap string Session.t,
            (forall k s, m !! k = Some s -> forallb event_ok (Session.events s) = true) ->
            forall sid a u t k s,
              <[sid := Session.init sid a u t None None]> m !! k = Some s ->
              forallb event_ok (Session.events s) = true).
  { intros m Hm sid a u t k s. destruct (decide (sid = k)) as [<-|Hne].
    - rewrite lookup_insert_eq. by intros [= <-].
    - rewrite lookup_insert_ne by done. apply Hm. }
  unfold events_ok in *. destruct w as [ss es ap ar url us ck]. cbn [sessions] in Hok.
  st_run.
  all: cbn [sessions].
  all: repeat first
         [ exact Hok
         | apply Hstate
         | apply Hngen; [|reflexivity]
         | apply Hins ].
Qed.

Lemma run_sse_keeps_events_well_formed_witness : events_ok world_s1.
Proof.
  apply (run_sse_keeps_events_well_formed (chat_request "s1" (JObj [("text", JStr "hi")]))
           (replies (JObj [("text", JStr "hello")])) world0).
  intros k s. cbn. by rewrite lookup_empty.
Defined.

Lemma trace_events_ok events :
  forallb event_ok events = true ->
  exists trace users agents,
    trace_events events = Ok trace
    /\ count_role "user" trace = Ok users
    /\ count_role "assistant" trace = Ok agents
    /\ length trace = length events
    /\ (users + agents = length events)%nat.
Proof.
  induction events as [|ev events IH]; intros Hok.
  { by exists [], O, O. }
  cbn [forallb] in Hok. apply andb_prop in Hok as [Hev Hok].
  destruct (IH Hok) as (trace & users & agents & Ht & Hu & Ha & Hlen & Hsum).
  destruct ev as [| | | | | |items]; try discriminate Hev.
  cbn [event_ok] in Hev.
  destruct (dict_lookup items "id") as [vid|] eqn:Eid; [|discriminate].
  destruct (dict_lookup items "timestamp") as [vts|] eqn:Ets; [|discriminate].
  destruct (dict_lookup items "type") as [vty|] eqn:Ety; [|discriminate].
  destruct (dict_lookup items "role") as [role|] eqn:Erole; [|discriminate].
  destruct (dict_lookup items "sessionId") as [vsid|] eqn:Esid; [|discriminate].
  cbn [trace_events]. unfold trace_event. cbn [getitem get].
  rewrite Eid, Ets, Ety, Erole, Esid. cbn [rbind]. rewrite Ht. cbn [rbind].
  eexists _, _, _. split; [reflexivity|].
  cbn [count_role getitem dict_lookup]. 
  repeat (rewrite bool_decide_eq_false_2 by discriminate).
  rewrite bool_decide_eq_true_2 by reflexivity.
  cbn [rbind]. rewrite Hu, Ha. cbn [rbind].
  split; [reflexivity|]. split; [reflexivity|].
  split; [simpl; lia|].
  destruct role as [| | | |r| |]; try discriminate Hev. cbn [eq_str] in *.
  destruct (bool_decide (r = "user")) eqn:B1.
  - apply bool_decide_eq_true in B1 as ->. simpl. lia.
  - cbn [orb] in Hev. rewrite Hev. simpl. lia.
Qed.

(** X12: for a stored session whose events are well formed, the trace has
    one entry per event, reports the number of events as the total, and
    the user and agent counts add up to that total; the state is left as
    it was. *)
Theorem get_session_trace_counts session_id w s :
  is_unset session_id = false ->
  sessions w !! session_id = Some s ->
  forallb event_ok (Session.events s) = true ->
  exists trace users agents,
    get_session_trace session_id w
    = (Ok (JObj [("sessionId", JStr session_id);
                 ("trace", JArr trace);
                 ("performance", JObj [
                    ("totalEvents", JInt (Z.of_nat (length (Session.events s))));
                    ("userMessages", JInt (Z.of_nat users));
                    ("agentMessages", JInt (Z.of_nat agents))])]), w)
    /\ length trace = length (Session.events s)
    /\ (users + agents = length (Session.events s))%nat.
Proof.
  intros Hset Hs Hok.
  destruct (trace_events_ok _ Hok) as (trace & users & agents & Ht & Hu & Ha & Hlen & Hsum).
  exists trace, users, agents. split; [|done].
  unfold get_session_trace. rewrite Hset.
  destruct w as [ss es ap ar url us ck]. cbn [sessions] in Hs.
  more_step. rewrite Hs. more_step. rewrite Ht. more_step. rewrite Hu. more_step.
  rewrite Ha. more_step. by rewrite Hlen.
Qed.

Lemma get_session_trace_counts_witness :
  exists trace users agents,
    get_session_trace "s1" world_s1
    = (Ok (JObj [("sessionId", JStr "s1");
                 ("trace", JArr trace);
                 ("performance", JObj [
                    ("totalEvents", JInt 2);
                    ("userMessages", JInt (Z.of_nat users));
                    ("agentMessages", JInt (Z.of_nat agents))])]), world_s1)
    /\ length trace = 2%nat
    /\ (users + agents = 2)%nat.
Proof.
  apply (get_session_trace_counts "s1" world_s1 session_s1).
  - vm_compute; reflexivity.
  - vm_compute; reflexivity.
  - vm_compute; reflexivity.
Defined.

(** X13: the trace never changes the state, and for a placeholder id or an
    id that is not stored it answers an empty trace, never an error. *)
Theorem get_session_trace_is_read_only session_id w :
  (get_session_trace session_id w).2 = w
  /\ (is_unset session_id = true \/ sessions w !! session_id = None ->
      exists answer,
        get_session_trace session_id w = (Ok answer, w)
        /\ get answer "trace" JNull = Ok (JArr [])
        /\ get answer "performance" JNull = Ok (JObj [])).
Proof.
  destruct w as [ss es ap ar url us ck]. cbn [sessions]. split.
  - more_run; reflexivity.
  - intros H. unfold get_session_trace. destruct (is_unset session_id) eqn:Hu.
    + eexists. split; [reflexivity|]. split; reflexivity.
    + destruct H as [H|H]; [discriminate|]. more_step. rewrite H.
      eexists. split; [reflexivity|]. split; reflexivity.
Qed.

Lemma get_session_trace_is_read_only_witness :
  exists answer,
    get_session_trace "undefined" world_undefined = (Ok answer, world_undefined)
    /\ get answer "trace" JNull = Ok (JArr [])
    /\ get answer "performance" JNull = Ok (JObj []).
Proof.
  destruct (get_session_trace_is_read_only "undefined" world_undefined) as [_ H].
  apply H. left. reflexivity.
Defined.

(** ** The extraction and the truncation, continued *)

(** X14: the first place that holds a truthy text wins and the places after
    it are not read, so a wrong type there raises nothing. *)
Theorem extract_text_first_match_wins items first_text text :
  pattern_1 (JObj items) = Ok first_text ->
  (truthy first_text = true -> extract_text (JObj items) = Ok first_text)
  /\ (truthy first_text = false -> dict_lookup items "text" = Some text ->
      truthy text = true -> extract_text (JObj items) = Ok text).
Proof.
  intros Hp. unfold extract_text. rewrite Hp. cbn [rbind]. split.
  - intros Ht. repeat (rewrite Ht; cbn [negb rbind]). reflexivity.
  - intros Hf Hl Ht. rewrite Hf. cbn [negb get]. rewrite Hl. cbn [rbind].
    repeat (rewrite Ht; cbn [negb rbind]). reflexivity.
Qed.

Lemma extract_text_first_match_wins_witness :
  extract_text (JObj [("text", JStr "hi"); ("content", JStr "oops"); ("message", JInt 3)])
  = Ok (JStr "hi").
Proof.
  destruct (extract_text_first_match_wins
              [("text", JStr "hi"); ("content", JStr "oops"); ("message", JInt 3)]
              JNull (JStr "hi")) as [_ H]; [reflexivity|].
  apply H; reflexivity.
Defined.

Lemma length_string_append s1 s2 :
  String.length (s1 +:+ s2) = (String.length s1 + String.length s2)%nat.
Proof. induction s1 as [|c s1 IH]; simpl; [done|]. by rewrite IH. Qed.

(** X15: the truncation of a string never raises and keeps at most 103
    characters: a text of up to 100 characters is kept as it is, a longer
    one becomes exactly 103 characters long. *)
Theorem last_agent_response_bound txt :
  exists kept,
    last_agent_response (JStr txt) = Ok (JStr kept)
    /\ (String.length kept <= 103)%nat
    /\ ((String.length txt <= 100)%nat -> kept = txt)
    /\ ((100 < String.length txt)%nat -> String.length kept = 103%nat).
Proof.
  unfold last_agent_response. cbn [len rbind].
  destruct (100 <? String.length txt)%nat eqn:Hlen; cbn [slice_to rbind add_str].
  - apply Nat.ltb_lt in Hlen. eexists. split; [reflexivity|].
    rewrite length_string_append. cbn [String.length].
    rewrite substring_prefix_length by lia. repeat split; lia.
  - apply Nat.ltb_ge in Hlen. exists txt. repeat split; lia.
Qed.

(** ** Configuration and connectivity check *)

(** X16: a configuration request with no url or an empty one is refused
    with 400 and changes nothing; with any other url it is accepted, the
    url is read back by the next fetch of the configuration, the sessions
    are untouched, and the next chat turn posts to that url. *)
Theorem update_agent_url_round_trip config w request outcome :
  (url config = None \/ url config = Some "" ->
   update_agent_url config w = (Raise (MkHTTPException 400 "URL is required"), w))
  /\ (forall new_url,
        url config = Some new_url -> new_url <> "" ->
        let w' := (update_agent_url config w).2 in
        (update_agent_url config w).1
        = Ok (JObj [("status", JStr "updated"); ("remote_agent_url", JStr new_url)])
        /\ get_agent_url w' = (Ok (JObj [("remote_agent_url", JStr new_url)]), w')
        /\ sessions w' = sessions w
        /\ (posted (run_sse request outcome w').2 = []
            \/ exists envelope,
                 posted (run_sse request outcome w').2 = [(new_url, envelope)])).
Proof.
  destruct config as [u]. cbn [url]. split.
  - intros [->| ->]; reflexivity.
  - intros new_url -> Hne. cbv zeta.
    assert (E : update_agent_url (MkAgentUrlConfig (Some new_url)) w
                = (Ok (JObj [("status", JStr "updated");
                             ("remote_agent_url", JStr new_url)]),
                   set_remote_agent_url new_url w)).
    { unfold update_agent_url. cbn [url default].
      rewrite (bool_decide_eq_false_2 _ Hne). reflexivity. }
    rewrite E. cbn [fst snd]. destruct w as [ss es ap ar url us ck].
    unfold set_remote_agent_url. cbn [sessions eval_sets apps artifacts uuid_stream clock].
    split; [reflexivity|]. split; [reflexivity|]. split; [reflexivity|].
    st_run; cbn [posted]; eauto.
Qed.

Lemma update_agent_url_round_trip_witness :
  update_agent_url (MkAgentUrlConfig (Some "")) world0
  = (Raise (MkHTTPException 400 "URL is required"), world0)
  /\ get_agent_url (update_agent_url (MkAgentUrlConfig (Some "http://agent:9000")) world0).2
     = (Ok (JObj [("remote_agent_url", JStr "http://agent:9000")]),
        (update_agent_url (MkAgentUrlConfig (Some "http://agent:9000")) world0).2).
Proof.
  split.
  - apply (update_agent_url_round_trip (MkAgentUrlConfig (Some "")) world0
             (chat_request "s1" (JObj [])) (replies (JObj []))).
    right. reflexivity.
  - destruct (update_agent_url_round_trip (MkAgentUrlConfig (Some "http://agent:9000"))
                world0 (chat_request "s1" (JObj [])) (replies (JObj []))) as [_ H].
    destruct (H "http://agent:9000") as (_ & Hget & _); [reflexivity | discriminate |].
    exact Hget.
Defined.

(** X17: the connectivity check never raises and never changes the state:
    it answers with the configured url and a status that is success only
    when the agent answered 200 with a body that decodes, which it hands
    back; otherwise the status is error.  It posts at most once. *)
Theorem test_agent_connection_always_answers message outcome w :
  exists answer status sent,
    test_agent_connection message outcome (MkRun w [] []) = (Ok answer, MkRun w [] sent)
    /\ (length sent <= 1)%nat
    /\ get answer "status" JNull = Ok (JStr status)
    /\ get answer "remote_agent_url" JNull = Ok (JStr (REMOTE_AGENT_URL w))
    /\ (status = "error"
        \/ (status = "success"
            /\ exists body agent_response,
                 outcome = Response 200 body (Ok agent_response)
                 /\ get answer "response" JNull = Ok agent_response)).
Proof.
  destruct w as [ss es ap ar url us ck].
  more_run.
  all: eexists _, _, _; split; [reflexivity|].
  all: split; [cbn [length]; lia|]; split; [reflexivity|]; split; [reflexivity|].
  all: try (left; reflexivity).
  all: right; split; [reflexivity|].
  all: match goal with H : (_ =? 200) = true |- _ => apply Z.eqb_eq in H; subst end.
  all: eauto.
Qed.

(** ** Evaluation sets and artifacts *)

Lemma dict_set_keys {V} (items : list (string * V)) k v :
  (dict_set items k v).*1 = items.*1
  \/ ((k ∉ items.*1) /\ (dict_set items k v).*1 = items.*1 ++ [k]).
Proof.
  induction items as [|[j x] items IH]; cbn [dict_set].
  - right. split; [apply not_elem_of_nil | reflexivity].
  - case_bool_decide as Hjk.
    + left. reflexivity.
    + cbn [fmap list_fmap fst]. destruct IH as [IH|[Hnin IH]].
      * left. by f_equal.
      * right. split.
        -- intros Hin. apply elem_of_cons in Hin as [->|Hin]; [by apply Hjk | by apply Hnin].
        -- cbn. by f_equal.
Qed.

Lemma dict_set_NoDup {V} (items : list (string * V)) k v :
  NoDup items.*1 -> NoDup (dict_set items k v).*1.
Proof.
  intros Hnd. destruct (dict_set_keys items k v) as [->|[Hnin ->]]; [done|].
  apply NoDup_app. split; [done|]. split.
  - intros x Hx Hin. apply list_elem_of_singleton in Hin as ->. by apply Hnin.
  - apply NoDup_singleton.
Qed.

Lemma dict_set_Forall {V} (P : string * V -> Prop) (items : list (string * V)) k v :
  P (k, v) -> (forall j x, j = k -> P (j, x) -> P (j, v)) ->
  Forall P items -> Forall P (dict_set items k v).
Proof.
  intros Hkv Hrep. induction 1 as [|[j x] items Hx Hitems IH]; cbn [dict_set].
  - by constructor.
  - case_bool_decide as Hjk.
    + constructor; [|done]. by apply (Hrep j x).
    + by constructor.
Qed.

Lemma reachable_eval_sets w :
  reachable w -> NoDup (eval_sets w).*1 /\ Forall fresh_eval_set (eval_sets w).
Proof.
  induction 1 as [uuids times|w w' _ [IHnd IHall] Hstep].
  - cbn. split; [apply NoDup_nil_2 | constructor].
  - destruct (step_registries _ _ Hstep) as (_ & _ & [->|[k ->]]); [done|].
    split; [by apply dict_set_NoDup|].
    apply dict_set_Forall; [done| |done].
    intros j x -> _. done.
Qed.

Lemma reachable_registries w :
  reachable w ->
  apps w = ["sample-app"; "demo-agent"; "test-application"] /\ artifacts w = ∅.
Proof.
  induction 1 as [uuids times|w w' _ [IHa IHr] Hstep]; [done|].
  destruct (step_registries _ _ Hstep) as (-> & -> & _). done.
Qed.

Lemma dict_lookup_elem_of {V} (items : list (string * V)) k v :
  dict_lookup items k = Some v -> (k, v) ∈ items.
Proof.
  induction items as [|[j x] items IH]; cbn [dict_lookup]; [done|].
  case_bool_decide as Hjk.
  - intros [= <-]. subst. apply list_elem_of_here.
  - intros H. apply list_elem_of_further. by apply IH.
Qed.

Lemma dict_lookup_set_eq {V} (items : list (string * V)) k v :
  dict_lookup (dict_set items k v) k = Some v.
Proof.
  induction items as [|[j x] items IH]; cbn [dict_set dict_lookup].
  - by rewrite bool_decide_eq_true_2.
  - case_bool_decide as Hjk; cbn [dict_lookup].
    + by rewrite bool_decide_eq_true_2.
    + by rewrite bool_decide_eq_false_2.
Qed.

Lemma dict_lookup_set_ne {V} (items : list (string * V)) k j v :
  j <> k -> dict_lookup (dict_set items k v) j = dict_lookup items j.
Proof.
  intros Hne. induction items as [|[i x] items IH]; cbn [dict_set dict_lookup].
  - by rewrite bool_decide_eq_false_2 by congruence.
  - case_bool_decide as Hik; cbn [dict_lookup].
    + subst. by rewrite !bool_decide_eq_false_2 by congruence.
    + by rewrite IH.
Qed.

(** X18: creating an evaluation set under an id that exists replaces the
    set, cases included, in its place; under a new id it adds the set at
    the end.  Either way the set then lists no case and every other set is
    as before. *)
Theorem create_eval_set_resets app_name eval_set_id w :
  let w' := (create_eval_set app_name eval_set_id w).2 in
  (forall other_app,
     list_eval_cases other_app eval_set_id w' = (Ok (JObj [("cases", JArr [])]), w'))
  /\ (forall other_id, other_id <> eval_set_id ->
        dict_lookup (eval_sets w') other_id = dict_lookup (eval_sets w) other_id)
  /\ ((eval_sets w').*1 = (eval_sets w).*1
      \/ ((eval_set_id ∉ (eval_sets w).*1)
          /\ (eval_sets w').*1 = (eval_sets w).*1 ++ [eval_set_id])).
Proof.
  cbv zeta. destruct w as [ss es ap ar url us ck]. more_step. cbn [eval_sets].
  split; [|split].
  - intros a. more_step. by rewrite dict_lookup_set_eq.
  - intros k Hk. by apply dict_lookup_set_ne.
  - apply dict_set_keys.
Qed.

Lemma create_eval_set_resets_witness :
  list_eval_cases "a" "regression" world_with_cases
  = (Ok (JObj [("cases", JArr [eval_case_dict (EvalCase.Make "c1" [] (JObj []) noon)])]),
     world_with_cases)
  /\ list_eval_cases "a" "regression" (create_eval_set "a" "regression" world_with_cases).2
     = (Ok (JObj [("cases", JArr [])]), (create_eval_set "a" "regression" world_with_cases).2)
  /\ dict_lookup (eval_sets (create_eval_set "a" "regression" world_with_cases).2) "smoke"
     = dict_lookup (eval_sets world_with_cases) "smoke".
Proof.
  split; [reflexivity|].
  destruct (create_eval_set_resets "a" "regression" world_with_cases) as (H1 & H2 & _).
  split; [apply H1|]. apply H2. discriminate.
Defined.

(** X19: no handler adds a case: in every reachable state the ids of the
    evaluation sets are pairwise distinct, every set is listed with its id
    as name and a case count of zero, and the cases of a set are answered
    with 404 or with the empty list. *)
Theorem reachable_eval_sets_stay_empty w app_name eval_set_id :
  reachable w ->
  NoDup (eval_sets w).*1
  /\ get_eval_sets app_name w
     = (Ok (JObj [("evalSets",
                   JArr (map (fun k => JObj [("id", JStr k); ("name", JStr k);
                                             ("caseCount", JInt 0)])
                           (eval_sets w).*1))]), w)
  /\ (list_eval_cases app_name eval_set_id w
      = (Raise (MkHTTPException 404 "Eval set not found"), w)
      \/ list_eval_cases app_name eval_set_id w = (Ok (JObj [("cases", JArr [])]), w)).
Proof.
  intros Hreach. destruct (reachable_eval_sets w Hreach) as [Hnd Hall].
  split; [done|]. destruct w as [ss es ap ar url us ck]. cbn [eval_sets] in *. split.
  - assert (map (fun kv : string * EvalSet.t => eval_set_summary kv.2) es
            = map (fun k => JObj [("id", JStr k); ("name", JStr k); ("caseCount", JInt 0)])
                es.*1) as Hmap.
    { clear Hnd Hreach. induction Hall as [|[k v] items (Hc & Hi & Hn) _ IH]; [done|].
      cbn in *. rewrite IH. unfold eval_set_summary. by rewrite Hc, Hi, Hn. }
    more_step. by rewrite Hmap.
  - more_step. destruct (dict_lookup es eval_set_id) as [v|] eqn:Hv; [|by left].
    right. apply dict_lookup_elem_of in Hv.
    rewrite Forall_forall in Hall. destruct (Hall _ Hv) as (Hc & _). cbn in Hc.
    by rewrite Hc.
Qed.

Lemma reachable_eval_sets_stay_empty_witness :
  NoDup (eval_sets (create_eval_set "a" "regression" world0).2).*1
  /\ get_eval_sets "b" (create_eval_set "a" "regression" world0).2
     = (Ok (JObj [("evalSets",
                   JArr (map (fun k => JObj [("id", JStr k); ("name", JStr k);
                                             ("caseCount", JInt 0)])
                           (eval_sets (create_eval_set "a" "regression" world0).2).*1))]),
        (create_eval_set "a" "regression" world0).2)
  /\ (list_eval_cases "b" "regression" (create_eval_set "a" "regression" world0).2
      = (Raise (MkHTTPException 404 "Eval set not found"),
         (create_eval_set "a" "regression" world0).2)
      \/ list_eval_cases "b" "regression" (create_eval_set "a" "regression" world0).2
         = (Ok (JObj [("cases", JArr [])]), (create_eval_set "a" "regression" world0).2)).
Proof.
  apply (reachable_eval_sets_stay_empty (create_eval_set "a" "regression" world0).2
           "b" "regression").
  apply (reachable_step world0); [apply reachable_start | apply step_create_eval_set].
Defined.

(** X20: no handler stores an artifact or changes the apps: in every
    reachable state the artifact mapping is empty, so the latest artifact
    is always the synthesized placeholder named as requested, and the apps
    are the three the process starts with. *)
Theorem reachable_artifacts_stay_empty w app_name user_id session_id artifact_name :
  reachable w ->
  artifacts w = ∅
  /\ (get_latest_artifact app_name user_id session_id artifact_name w).1
     = Ok (JObj [("id", JStr (str_uuid (uuid_stream w 0%nat)));
                 ("name", JStr artifact_name);
                 ("content", JObj [("type", JStr "text");
                                   ("data", JStr ("Sample content for " +:+ artifact_name))]);
                 ("version", JStr "1.0");
                 ("createdAt", JStr (isoformat (clock w 0%nat)))])
  /\ list_apps "./" w = (Ok ["sample-app"; "demo-agent"; "test-application"], w).
Proof.
  intros Hreach. destruct (reachable_registries w Hreach) as [Ha Hr].
  split; [done|]. destruct w as [ss es ap ar url us ck]. cbn [apps artifacts] in *. subst.
  split; [|reflexivity]. more_step. rewrite lookup_empty. reflexivity.
Qed.

Lemma reachable_artifacts_stay_empty_witness :
  artifacts world1 = ∅
  /\ (get_latest_artifact "a" "alice" (str_uuid 0) "report" world1).1
     = Ok (JObj [("id", JStr (str_uuid (uuid_stream world1 0%nat)));
                 ("name", JStr "report");
                 ("content", JObj [("type", JStr "text");
                                   ("data", JStr ("Sample content for " +:+ "report"))]);
                 ("version", JStr "1.0");
                 ("createdAt", JStr (isoformat (clock world1 0%nat)))])
  /\ list_apps "./" world1 = (Ok ["sample-app"; "demo-agent"; "test-application"], world1).
Proof.
  apply (reachable_artifacts_stay_empty world1 "a" "alice" (str_uuid 0) "report").
  exact reachable_world1.
Defined.
